(** * The hireability scoring engine of AI-Hiring-Intelligence

    A shallow embedding of [src/services/scoringEngine.ts] together with the
    part of the JavaScript runtime it calls ([Date], [Math], [Array.sort],
    [Set]), and the properties of the engine stated in the specification.

    Conventions of the embedding.
    - A JavaScript [number] holding a count or a time value is an integer
      ([N] for the counts, which the data source never reports negative;
      [Z] for time values in milliseconds since the epoch and for day gaps).
    - A [number] holding a score is a real number: the arithmetic of the
      engine is read over [R], without the rounding of IEEE doubles.
    - A timestamp field ([created_at], [pushed_at], [updated_at]) holds the
      time value of the [Date] built from its ISO-8601 text, so records
      whose text does not parse are outside the model.
    - Every evaluation of [new Date()] reads the system clock; the clock is
      a function from the index of the read (0 for the first read of a call)
      to the time value it returns. *)

From Stdlib Require Import ZArith NArith List String Ascii Bool Reals Lra Lia.
From Stdlib Require Import Permutation Sorted DecimalString.
Import ListNotations.

(** ** The JavaScript runtime used by the engine *)

Module Js.

Local Open Scope Z_scope.

(** *** Time values (ECMA-262, Date objects) *)

Definition msPerDay : Z := 86400000.
Definition msPerHour : Z := 3600000.
Definition msPerMinute : Z := 60000.
Definition msPerSecond : Z := 1000.

Definition Day (t : Z) : Z := t / msPerDay.
Definition TimeWithinDay (t : Z) : Z := t mod msPerDay.

Definition isLeap (y : Z) : bool :=
  (y mod 4 =? 0) && (negb (y mod 100 =? 0) || (y mod 400 =? 0)).

Definition DaysInYear (y : Z) : Z := if isLeap y then 366 else 365.

Definition DayFromYear (y : Z) : Z :=
  365 * (y - 1970) + (y - 1969) / 4 - (y - 1901) / 100 + (y - 1601) / 400.

Definition TimeFromYear (y : Z) : Z := msPerDay * DayFromYear y.

(** The largest year whose first day is not after [t]: an estimate from the
    mean length of a Gregorian year, moved by at most one year. *)
Definition YearFromTime (t : Z) : Z :=
  let d := Day t in
  let y0 := 1970 + (d * 10000) / 3652425 in
  if d <? DayFromYear y0 then y0 - 1
  else if DayFromYear (y0 + 1) <=? d then y0 + 1
  else y0.

Definition InLeapYear (t : Z) : Z :=
  if isLeap (YearFromTime t) then 1 else 0.

Definition DayWithinYear (t : Z) : Z := Day t - DayFromYear (YearFromTime t).

Definition MonthFromTime (t : Z) : Z :=
  let d := DayWithinYear t in
  let l := InLeapYear t in
  if d <? 31 then 0
  else if d <? 59 + l then 1
  else if d <? 90 + l then 2
  else if d <? 120 + l then 3
  else if d <? 151 + l then 4
  else if d <? 181 + l then 5
  else if d <? 212 + l then 6
  else if d <? 243 + l then 7
  else if d <? 273 + l then 8
  else if d <? 304 + l then 9
  else if d <? 334 + l then 10
  else 11.

(** Number of days of the year that precede month [m] (0 = January). *)
Definition daysBeforeMonth (leap : Z) (m : Z) : Z :=
  if m =? 0 then 0
  else if m =? 1 then 31
  else if m =? 2 then 59 + leap
  else if m =? 3 then 90 + leap
  else if m =? 4 then 120 + leap
  else if m =? 5 then 151 + leap
  else if m =? 6 then 181 + leap
  else if m =? 7 then 212 + leap
  else if m =? 8 then 243 + leap
  else if m =? 9 then 273 + leap
  else if m =? 10 then 304 + leap
  else 334 + leap.

Definition DateFromTime (t : Z) : Z :=
  DayWithinYear t - daysBeforeMonth (InLeapYear t) (MonthFromTime t) + 1.

Definition HourFromTime (t : Z) : Z := (t / msPerHour) mod 24.
Definition MinFromTime (t : Z) : Z := (t / msPerMinute) mod 60.
Definition SecFromTime (t : Z) : Z := (t / msPerSecond) mod 60.
Definition msFromTime (t : Z) : Z := t mod msPerSecond.

(** [MakeDay year month date]: the day number of the first of the month,
    moved by [date - 1] days; [date] may lie outside the month. *)
Definition MakeDay (year month date : Z) : Z :=
  let ym := year + month / 12 in
  let mn := month mod 12 in
  DayFromYear ym + daysBeforeMonth (if isLeap ym then 1 else 0) mn + date - 1.

Definition MakeDate (day time : Z) : Z := day * msPerDay + time.

(** *** Local time.  [tza t isUTC] is the offset of the host's time zone in
    milliseconds, at the UTC time value [t] when [isUTC] is [true] and at
    the local time value [t] otherwise. *)

Section LocalTime.
Variable tza : Z -> bool -> Z.

Definition LocalTime (t : Z) : Z := t + tza t true.
Definition UTC (t : Z) : Z := t - tza t false.

(** [d.getDate()] for a date object of time value [t]. *)
Definition getDate (t : Z) : Z := DateFromTime (LocalTime t).

(** [d.setDate(dt)]: the new time value of a date object of time value
    [t].  Time values are unbounded integers here, so the final [TimeClip]
    of the runtime, the identity on the range of dates, is left out. *)
Definition setDate (t : Z) (dt : Z) : Z :=
  let lt := LocalTime t in
  let newDate :=
    MakeDate (MakeDay (YearFromTime lt) (MonthFromTime lt) dt)
             (TimeWithinDay lt) in
  UTC newDate.
End LocalTime.

(** *** [Date.prototype.toISOString] *)

Definition digit (n : Z) : ascii := ascii_of_nat (48 + Z.to_nat (n mod 10)).

(** The [w] lowest decimal digits of [n], most significant first. *)
Fixpoint digits (w : nat) (n : Z) : string :=
  match w with
  | O => EmptyString
  | S w' => (digits w' (n / 10) ++ String (digit n) EmptyString)%string
  end.

Definition isoYear (y : Z) : string :=
  if (0 <=? y) && (y <=? 9999) then digits 4 y
  else if 0 <=? y then ("+" ++ digits 6 y)%string
  else ("-" ++ digits 6 (- y))%string.

Definition toISOString (t : Z) : string :=
  (isoYear (YearFromTime t) ++ "-" ++ digits 2 (MonthFromTime t + 1) ++ "-"
   ++ digits 2 (DateFromTime t) ++ "T" ++ digits 2 (HourFromTime t) ++ ":"
   ++ digits 2 (MinFromTime t) ++ ":" ++ digits 2 (SecFromTime t) ++ "."
   ++ digits 3 (msFromTime t) ++ "Z")%string.

(** *** [Math] *)

Local Open Scope R_scope.

(** [Math.round]: the nearest integer, a tie going up. *)
Definition Math_round (x : R) : Z := Zfloor (x + / 2).

(** [Math.floor (a / b)] for integers [a] and [b > 0]. *)
Definition Math_floor_div (a b : Z) : Z := (a / b)%Z.

Definition Math_log10 (x : R) : R := ln x / ln 10.

Definition Math_min (x y : R) : R := Rmin x y.
Definition Math_max (x y : R) : R := Rmax x y.

(** *** [Array.prototype.sort], a stable sort: [a] goes before [b] when
    [cmp a b < 0], after it when [cmp a b > 0], and elements that compare
    equal keep their order. *)

Section Sort.
Context {A : Type} (cmp : A -> A -> Z).

Fixpoint sort_insert (x : A) (l : list A) : list A :=
  match l with
  | [] => [x]
  | y :: l' => if (cmp x y <=? 0)%Z then x :: y :: l'
               else y :: sort_insert x l'
  end.

Fixpoint Array_sort (l : list A) : list A :=
  match l with
  | [] => []
  | x :: l' => sort_insert x (Array_sort l')
  end.
End Sort.

(** *** [Set]: the elements in insertion order, each value once. *)

Section JsSet.
Context {A : Type} (eqb : A -> A -> bool).

Definition Set_has (s : list A) (x : A) : bool := existsb (eqb x) s.

Definition Set_add (s : list A) (x : A) : list A :=
  if Set_has s x then s else s ++ [x].

Definition new_Set (l : list A) : list A := fold_left Set_add l [].

Definition Set_size (s : list A) : nat := List.length s.
End JsSet.

End Js.

(** ** The data model ([src/types.ts]) *)

Module GitHubProfile.
Record t : Type := mk {
  login : string;
  name : string;
  bio : string;
  avatar_url : string;
  public_repos : N;
  followers : N;
  following : N;
  created_at : Z;
  html_url : string;
  location : option string;
  blog : option string
}.
End GitHubProfile.

(** [description] and [language] are [null] in the data of a repository
    that has none, which the engine allows for ([?.] and [filter(Boolean)]):
    they are optional here. *)
Module GitHubRepo.
Record t : Type := mk {
  name : string;
  description : option string;
  stargazers_count : N;
  forks_count : N;
  language : option string;
  updated_at : Z;
  pushed_at : Z;
  html_url : string;
  size : N;
  fork : bool;
  has_issues : bool;
  has_projects : bool;
  has_pages : bool
}.
End GitHubRepo.

Inductive ActivityLevel : Type :=
  | HIGHLY_ACTIVE
  | MODERATELY_ACTIVE
  | INACTIVE.

Module ScoringMetrics.
Record t : Type := mk {
  totalScore : Z;
  repoCountScore : Z;
  starImpact : Z;
  activityScore : Z;
  diversityScore : Z;
  followerSignal : Z;
  documentationScore : Z;
  originalityScore : Z;
  activityLevel : ActivityLevel;
  lastCommitDate : string;
  daysSinceLastActivity : Z;
  recentActivityVelocity : Z
}.
End ScoringMetrics.

(** ** The scoring engine ([src/services/scoringEngine.ts])

    Every [const] and [let] of [calculateHireabilityScore] is a definition
    of the same name, a function of what it depends on. *)

Import Js.

Definition numN (n : N) : R := IZR (Z.of_N n).
Definition numLen {A : Type} (l : list A) : R := INR (List.length l).

Section Engine.
(** The time zone of the host and its clock. *)
Variable tza : Z -> bool -> Z.
Variable clock : nat -> Z.

Variable profile : GitHubProfile.t.
Variable repos : list GitHubRepo.t.

Definition now : Z := clock 0.

(** [new Date()], a second read of the clock, then
    [setDate(now.getDate() - 90)]. *)
Definition ninetyDaysAgo : Z :=
  setDate tza (clock 1) (getDate tza now - 90).

Definition originalRepos : list GitHubRepo.t :=
  filter (fun r => negb (GitHubRepo.fork r)) repos.

Definition forkCount : Z :=
  Z.of_nat (List.length repos) - Z.of_nat (List.length originalRepos).

Definition originalityRatio : R :=
  if (0 <? List.length repos)%nat
  then numLen originalRepos / numLen repos
  else 0%R.

(** *** 1. Activity velocity *)

(** The comparison function of the sort: most recent push first. *)
Definition byPushDesc (a b : GitHubRepo.t) : Z :=
  GitHubRepo.pushed_at b - GitHubRepo.pushed_at a.

Definition sortedByPush : list GitHubRepo.t := Array_sort byPushDesc repos.

Definition pushedSince (since : Z) (repo : GitHubRepo.t) : bool :=
  (since <=? GitHubRepo.pushed_at repo)%Z.

(** The three variables that the block guarded by [repos.length > 0]
    assigns: [(lastCommitDate, daysSinceLastActivity,
    recentActivityVelocity)].  The sorted copy of a list that is not
    empty has a first element; the branch for an empty one is never
    taken. *)
Definition activityVars : string * Z * Z :=
  if (0 <? List.length repos)%nat then
    match sortedByPush with
    | first :: _ =>
        let lastDate := GitHubRepo.pushed_at first in
        (toISOString lastDate,
         Math_floor_div (now - lastDate) (1000 * 60 * 60 * 24),
         Z.of_nat (List.length (filter (pushedSince ninetyDaysAgo) repos)))
    | [] => ("N/A"%string, 999%Z, 0%Z)
    end
  else ("N/A"%string, 999%Z, 0%Z).

Definition lastCommitDate : string := fst (fst activityVars).
Definition daysSinceLastActivity : Z := snd (fst activityVars).
Definition recentActivityVelocity : Z := snd activityVars.

Definition activityLevel : ActivityLevel :=
  if (daysSinceLastActivity <=? 7)%Z && (5 <=? recentActivityVelocity)%Z
  then HIGHLY_ACTIVE
  else if (daysSinceLastActivity <=? 30)%Z && (1 <=? recentActivityVelocity)%Z
  then MODERATELY_ACTIVE
  else INACTIVE.

Definition recencyMultiplier : R :=
  if (daysSinceLastActivity =? 0)%Z then 1%R
  else Math_max 0 (1 - IZR daysSinceLastActivity / 90).

Definition activityScore : R :=
  ((Math_min 10 (IZR recentActivityVelocity) * 3) * recencyMultiplier)%R.

(** *** 2. Originality *)

Definition originalityScore : R := (originalityRatio * 20)%R.

(** *** 3. Technical breadth and stars *)

Definition totalStars : N :=
  fold_left (fun sum r => (sum + GitHubRepo.stargazers_count r)%N)
            originalRepos 0%N.

(** [Boolean(v)] for a value that is a string or [null]. *)
Definition truthy (v : option string) : bool :=
  match v with
  | Some s => negb (String.eqb s EmptyString)
  | None => false
  end.

Definition sameValue (a b : option string) : bool :=
  match a, b with
  | Some x, Some y => String.eqb x y
  | None, None => true
  | _, _ => false
  end.

Definition languages : list (option string) :=
  new_Set sameValue (filter truthy (map GitHubRepo.language originalRepos)).

Definition starBonus : R :=
  Math_min 5 ((Math_log10 (numN totalStars + 1) / 2) * 5).

Definition languageBonus : R :=
  Math_min 10 ((INR (Set_size languages) / 4) * 10).

Definition diversityScore : R := (starBonus + languageBonus)%R.

(** *** 4. Documentation signal *)

(** [r.description?.length || 0] *)
Definition descriptionLength (r : GitHubRepo.t) : nat :=
  match GitHubRepo.description r with
  | Some s => String.length s
  | None => 0
  end.

Definition reposWithDesc : nat :=
  List.length (filter (fun r => (20 <? descriptionLength r)%nat)
                      originalRepos).

Definition usesFeatures (r : GitHubRepo.t) : bool :=
  GitHubRepo.has_issues r || GitHubRepo.has_pages r
  || GitHubRepo.has_projects r.

Definition featureUsage : nat :=
  List.length (filter usesFeatures originalRepos).

Definition docRatio : R :=
  if (0 <? List.length originalRepos)%nat
  then (INR (reposWithDesc + featureUsage) / (numLen originalRepos * 2))%R
  else 0%R.

Definition documentationScore : R := (docRatio * 15)%R.

(** *** 5. Social and maturity *)

Definition accountAgeYears : R :=
  (IZR (now - GitHubProfile.created_at profile)
   / (1000 * 60 * 60 * 24 * 365))%R.

Definition ageScore : R := Math_min 5 accountAgeYears.

Definition followerScore : R :=
  Math_min 5 ((numN (GitHubProfile.followers profile) / 100) * 5).

Definition followerSignal : R := (ageScore + followerScore)%R.

(** *** 6. Complexity *)

Definition avgSize : R :=
  if (0 <? List.length originalRepos)%nat
  then (numN (fold_left (fun sum r => (sum + GitHubRepo.size r)%N)
                        originalRepos 0%N)
        / numLen originalRepos)%R
  else 0%R.

Definition complexityScore : R :=
  Math_min 10 ((Math_log10 (avgSize + 1) / 5) * 10).

(** *** The result *)

Definition scoreSum : R :=
  (activityScore + originalityScore + diversityScore + documentationScore
   + followerSignal + complexityScore)%R.

Definition totalScore : Z := Math_round scoreSum.

Definition calculateHireabilityScore : ScoringMetrics.t :=
  {| ScoringMetrics.totalScore := totalScore;
     ScoringMetrics.repoCountScore := Math_round originalityScore;
     ScoringMetrics.starImpact := Math_round starBonus;
     ScoringMetrics.activityScore := Math_round activityScore;
     ScoringMetrics.diversityScore := Math_round diversityScore;
     ScoringMetrics.followerSignal := Math_round followerSignal;
     ScoringMetrics.documentationScore := Math_round documentationScore;
     ScoringMetrics.originalityScore := Math_round originalityScore;
     ScoringMetrics.activityLevel := activityLevel;
     ScoringMetrics.lastCommitDate := lastCommitDate;
     ScoringMetrics.daysSinceLastActivity := daysSinceLastActivity;
     ScoringMetrics.recentActivityVelocity := recentActivityVelocity |}.
End Engine.

(** ** Notions of the specification *)

(** [m] is the most recent push timestamp over all of [repos], forks
    included. *)
Definition spec_mostRecentPush (repos : list GitHubRepo.t) (m : Z) : Prop :=
  (exists r, In r repos /\ GitHubRepo.pushed_at r = m)
  /\ forall r, In r repos -> (GitHubRepo.pushed_at r <= m)%Z.

(** The sum of the stars of the original repositories. *)
Fixpoint spec_starsOfOriginals (repos : list GitHubRepo.t) : N :=
  match repos with
  | [] => 0%N
  | r :: rest =>
      ((if GitHubRepo.fork r then 0 else GitHubRepo.stargazers_count r)
       + spec_starsOfOriginals rest)%N
  end.

(** [s] is the language of an original repository and is not empty. *)
Definition spec_languageOfOriginal (repos : list GitHubRepo.t) (s : string)
  : Prop :=
  s <> EmptyString
  /\ exists r, In r repos /\ GitHubRepo.fork r = false
               /\ GitHubRepo.language r = Some s.

(** [n] is the number of distinct non-empty languages of the original
    repositories: the length of a duplicate-free enumeration of them. *)
Definition spec_distinctLanguages (repos : list GitHubRepo.t) (n : nat)
  : Prop :=
  exists l : list string,
    NoDup l /\ (forall s, In s l <-> spec_languageOfOriginal repos s)
    /\ List.length l = n.

(** The original repositories whose description is longer than 20
    characters, and those with a feature flag set. *)
Definition spec_describedOriginals (repos : list GitHubRepo.t) : nat :=
  List.length
    (filter (fun r => negb (GitHubRepo.fork r)
                      && match GitHubRepo.description r with
                         | Some s => (20 <? String.length s)%nat
                         | None => false
                         end) repos).

Definition spec_featureOriginals (repos : list GitHubRepo.t) : nat :=
  List.length
    (filter (fun r => negb (GitHubRepo.fork r)
                      && (GitHubRepo.has_issues r || GitHubRepo.has_projects r
                          || GitHubRepo.has_pages r)) repos).

Definition spec_originalCount (repos : list GitHubRepo.t) : nat :=
  List.length (filter (fun r => negb (GitHubRepo.fork r)) repos).

(** The recency multiplier as a function of the day gap. *)
Definition spec_recency (gap : Z) : R :=
  if (gap =? 0)%Z then 1%R else Rmax 0 (1 - IZR gap / 90).

(** No timestamp of the input lies after the first read of the clock. *)
Definition noFutureTimestamps (clock : nat -> Z) (profile : GitHubProfile.t)
  (repos : list GitHubRepo.t) : Prop :=
  (GitHubProfile.created_at profile <= now clock)%Z
  /\ forall r, In r repos -> (GitHubRepo.pushed_at r <= now clock)%Z.

(** The clock stands still at [t] for the whole call. *)
Definition clockFixedAt (clock : nat -> Z) (t : Z) : Prop :=
  forall k, clock k = t.


(** The sum of the six sub-scores, each rounded on its own. *)
Definition sumOfRounded (tza : Z -> bool -> Z) (clock : nat -> Z)
  (profile : GitHubProfile.t) (repos : list GitHubRepo.t) : Z :=
  let m := calculateHireabilityScore tza clock profile repos in
  (ScoringMetrics.activityScore m + ScoringMetrics.originalityScore m
   + ScoringMetrics.diversityScore m + ScoringMetrics.documentationScore m
   + ScoringMetrics.followerSignal m + Math_round (complexityScore repos))%Z.

(** ** Sample inputs *)

Module Sample.
(** A host on UTC whose clock stands still at 2024-03-01T00:00:00Z. *)
Definition utc : Z -> bool -> Z := fun _ _ => 0%Z.
Definition t0 : Z := 1709251200000%Z.
Definition clock0 : nat -> Z := fun _ => t0.

(** A clock whose second read is one millisecond after the first. *)
Definition clockTick : nat -> Z :=
  fun k => match k with O => t0 | _ => (t0 + 1)%Z end.

Definition days (n : Z) : Z := (n * msPerDay)%Z.

Definition profileOf (created : Z) (followers : N) : GitHubProfile.t :=
  {| GitHubProfile.login := "octocat";
     GitHubProfile.name := "Octo Cat";
     GitHubProfile.bio := EmptyString;
     GitHubProfile.avatar_url := EmptyString;
     GitHubProfile.public_repos := 1;
     GitHubProfile.followers := followers;
     GitHubProfile.following := 0;
     GitHubProfile.created_at := created;
     GitHubProfile.html_url := EmptyString;
     GitHubProfile.location := None;
     GitHubProfile.blog := None |}.

(** An original repository with no stars, no bytes, no description and
    no feature flag. *)
Definition repoOf (nm : string) (pushed : Z) (lang : option string)
  : GitHubRepo.t :=
  {| GitHubRepo.name := nm;
     GitHubRepo.description := None;
     GitHubRepo.stargazers_count := 0;
     GitHubRepo.forks_count := 0;
     GitHubRepo.language := lang;
     GitHubRepo.updated_at := pushed;
     GitHubRepo.pushed_at := pushed;
     GitHubRepo.html_url := EmptyString;
     GitHubRepo.size := 0;
     GitHubRepo.fork := false;
     GitHubRepo.has_issues := false;
     GitHubRepo.has_projects := false;
     GitHubRepo.has_pages := false |}.

(** Created at the first clock read, no followers. *)
Definition newcomer : GitHubProfile.t := profileOf t0 0.

(** Created two years after the first clock read, no followers. *)
Definition fromTheFuture : GitHubProfile.t :=
  profileOf (t0 + days 730) 0.

(** Ten followers, created at the first clock read. *)
Definition tenFollowers : GitHubProfile.t := profileOf t0 10.

(** One repository pushed 900 days after the first clock read. *)
Definition pushedAhead : list GitHubRepo.t :=
  [repoOf "ahead" (t0 + days 900) None].

(** One repository in Go, last pushed 200 days ago. *)
Definition oneStale : list GitHubRepo.t :=
  [repoOf "stale" (t0 - days 200) (Some "Go"%string)].

(** One repository pushed exactly 90 days before the first clock read. *)
Definition onTheEdge : list GitHubRepo.t :=
  [repoOf "edge" (t0 - days 90) None].

(** The same repository with another fork flag. *)
Definition withFork (fork : bool) (r : GitHubRepo.t) : GitHubRepo.t :=
  {| GitHubRepo.name := GitHubRepo.name r;
     GitHubRepo.description := GitHubRepo.description r;
     GitHubRepo.stargazers_count := GitHubRepo.stargazers_count r;
     GitHubRepo.forks_count := GitHubRepo.forks_count r;
     GitHubRepo.language := GitHubRepo.language r;
     GitHubRepo.updated_at := GitHubRepo.updated_at r;
     GitHubRepo.pushed_at := GitHubRepo.pushed_at r;
     GitHubRepo.html_url := GitHubRepo.html_url r;
     GitHubRepo.size := GitHubRepo.size r;
     GitHubRepo.fork := fork;
     GitHubRepo.has_issues := GitHubRepo.has_issues r;
     GitHubRepo.has_projects := GitHubRepo.has_projects r;
     GitHubRepo.has_pages := GitHubRepo.has_pages r |}.

(** A fork pushed today and an original pushed 40 days ago. *)
Definition forkIsLatest : list GitHubRepo.t :=
  [ repoOf "mine" (t0 - days 40) None;
    withFork true (repoOf "forked" t0 None) ].


(** Originals in Go (twice), Rust and TypeScript, one with an empty
    language, one with none, and a fork in C. *)
Definition threeLanguages : list GitHubRepo.t :=
  [ repoOf "a" t0 (Some "Go"%string);
    repoOf "b" t0 (Some "Rust"%string);
    repoOf "c" t0 (Some "Go"%string);
    repoOf "d" t0 (Some EmptyString);
    repoOf "e" t0 None;
    withFork true (repoOf "f" t0 (Some "C"%string));
    repoOf "g" t0 (Some "TypeScript"%string) ].
End Sample.

(** ** More of the runtime: plain objects, promises, responses *)

(** A plain object whose own properties hold strings, as [{}] builds it:
    its own properties (the order of the list carries no meaning here) and,
    behind them, the properties it inherits from [Object.prototype]. *)
Module JsObject.

Definition t : Type := list (string * string).

Definition empty : t := [].



(** The own property [key], if there is one. *)
Fixpoint getOwn (o : t) (key : string) : option string :=
  match o with
  | [] => None
  | (k, v) :: rest => if String.eqb k key then Some v else getOwn rest key
  end.

Fixpoint replace (o : t) (key value : string) : t :=
  match o with
  | [] => [(key, value)]
  | (k, v) :: rest =>
      if String.eqb k key then (k, value) :: rest
      else (k, v) :: replace rest key value
  end.

(** [o[key] = value] for a string [value]: the inherited setter of
    [__proto__] ignores a value that is not an object, every other name
    becomes or stays an own property. *)
Definition set (o : t) (key value : string) : t :=
  if String.eqb key "__proto__" then o else replace o key value.

(** [Object.keys(o)] up to order. *)
Definition keys (o : t) : list string := map fst o.


End JsObject.

Module Http.

(** A promise once settled; a rejection is kept by the [message] of its
    error. *)
Inductive Settled (A : Type) : Type :=
  | Fulfilled (value : A)
  | Rejected (message : string).
Arguments Fulfilled {A} value.
Arguments Rejected {A} message.

(** The response of [fetch]: [body] is what [json()] or [text()] settles
    to. *)
Record Response (A : Type) : Type := mkResponse {
  status : Z;
  statusText : string;
  body : Settled A
}.
Arguments mkResponse {A} status statusText body.
Arguments status {A} r.
Arguments statusText {A} r.
Arguments body {A} r.

Definition ok {A : Type} (r : Response A) : bool :=
  ((200 <=? status r) && (status r <=? 299))%Z.

End Http.

(** [text.slice(0, n)]: the first [n] characters. *)
Definition String_slice0 (n : nat) (text : string) : string :=
  substring 0 n text.

(** ** The GitHub service ([src/services/githubService.ts]) *)

Import Http.

(** What the network answers during one call, by request: the profile at
    [/users/{username}], page [page] of [/users/{username}/repos] (100 per
    page, sorted by push), and the README of the repository [name],
    requested for the audit target at position [position]. *)
Record Network : Type := {
  users : string -> Settled (Response GitHubProfile.t);
  userRepos : string -> Z -> Settled (Response (list GitHubRepo.t));
  readme : string -> string -> nat -> Settled (Response string)
}.

(** What [fetchGitHubData] resolves to. *)
Module GitHubData.
Record t : Type := mk {
  profile : GitHubProfile.t;
  repos : list GitHubRepo.t;
  topReadmes : JsObject.t
}.
End GitHubData.

Definition perPage : nat := 100.

Definition byStarsDesc (a b : GitHubRepo.t) : Z :=
  Z.of_N (GitHubRepo.stargazers_count b)
  - Z.of_N (GitHubRepo.stargazers_count a).

(** The top 3 original repositories by stars. *)
Definition auditTargets (repos : list GitHubRepo.t) : list GitHubRepo.t :=
  firstn 3
    (Array_sort byStarsDesc
       (filter (fun r => negb (GitHubRepo.fork r)) repos)).

Section GitHubService.
Variable net : Network.
Variable username : string.

(** The checks on the profile response, then [json()]. *)
Definition profileOfResponse (profileResponse : Response GitHubProfile.t)
  : Settled GitHubProfile.t :=
  if (status profileResponse =? 404)%Z then Rejected "CANDIDATE_NOT_FOUND"
  else if (status profileResponse =? 403)%Z then Rejected "RATE_LIMIT_EXCEEDED"
  else if negb (ok profileResponse)
       then Rejected ("API_FAILURE: " ++ statusText profileResponse)
  else body profileResponse.

(** The loop [while (page <= 3)], with the pages fetched so far in [repos].
    [fuel] bounds the iterations; 3 are enough from page 1. *)
Fixpoint fetchPages (fuel : nat) (page : Z) (repos : list GitHubRepo.t)
  : Settled (list GitHubRepo.t) :=
  match fuel with
  | O => Fulfilled repos
  | S fuel' =>
      if (page <=? 3)%Z then
        match userRepos net username page with
        | Rejected e => Rejected e
        | Fulfilled reposResponse =>
            if negb (ok reposResponse) then Fulfilled repos
            else
              match body reposResponse with
              | Rejected e => Rejected e
              | Fulfilled pageRepos =>
                  if (List.length pageRepos =? 0)%nat then Fulfilled repos
                  else
                    let repos := repos ++ pageRepos in
                    if (List.length pageRepos <? perPage)%nat
                    then Fulfilled repos
                    else fetchPages fuel' (page + 1) repos
              end
        end
      else Fulfilled repos
  end.

(** What the callback of one audit target stores, if anything: the first
    2000 characters of the README.  A rejected request, a response that is
    not ok and a body that cannot be read all store nothing. *)
Definition readmeSample (position : nat) (repo : GitHubRepo.t)
  : option string :=
  match readme net username (GitHubRepo.name repo) position with
  | Rejected _ => None
  | Fulfilled readmeResp =>
      if ok readmeResp then
        match body readmeResp with
        | Fulfilled text => Some (String_slice0 2000 text)
        | Rejected _ => None
        end
      else None
  end.

(** The callback at [position] of [Promise.all], run to its end. *)
Definition storeReadme (targets : list GitHubRepo.t) (topReadmes : JsObject.t)
  (position : nat) : JsObject.t :=
  match nth_error targets position with
  | Some repo =>
      match readmeSample position repo with
      | Some sample => JsObject.set topReadmes (GitHubRepo.name repo) sample
      | None => topReadmes
      end
  | None => topReadmes
  end.

(** The callbacks run to their end one at a time, in the order in which
    their requests complete: [completion] lists the positions of the audit
    targets in that order. *)
Definition storeReadmes (targets : list GitHubRepo.t) (completion : list nat)
  : JsObject.t :=
  fold_left (storeReadme targets) completion JsObject.empty.

Definition fetchGitHubData (completion : list nat) : Settled GitHubData.t :=
  match users net username with
  | Rejected e => Rejected e
  | Fulfilled profileResponse =>
      match profileOfResponse profileResponse with
      | Rejected e => Rejected e
      | Fulfilled profile =>
          match fetchPages 3 1 [] with
          | Rejected e => Rejected e
          | Fulfilled repos =>
              Fulfilled
                {| GitHubData.profile := profile;
                   GitHubData.repos := repos;
                   GitHubData.topReadmes :=
                     storeReadmes (auditTargets repos) completion |}
          end
      end
  end.
End GitHubService.

(** The body of page [page] when the request is answered, the response is
    ok and [json()] yields a list. *)
Definition spec_pageBody (net : Network) (username : string) (page : Z)
  : option (list GitHubRepo.t) :=
  match userRepos net username page with
  | Fulfilled response =>
      if ok response then
        match body response with
        | Fulfilled pageRepos => Some pageRepos
        | Rejected _ => None
        end
      else None
  | Rejected _ => None
  end.

(** [sample] is what the callback at [position] stores under [key]. *)
Definition spec_storedBy (net : Network) (username : string)
  (targets : list GitHubRepo.t) (key sample : string) (position : nat)
  : Prop :=
  exists repo,
    nth_error targets position = Some repo
    /\ GitHubRepo.name repo = key
    /\ key <> "__proto__"%string
    /\ readmeSample net username position repo = Some sample.

(** The order in which [a] goes before [b] when its key is larger. *)
Definition descendingBy {A : Type} (key : A -> Z) (a b : A) : Z :=
  key b - key a.

Definition starsOf (r : GitHubRepo.t) : Z :=
  Z.of_N (GitHubRepo.stargazers_count r).

(** [completion] names each audit target once. *)
Definition spec_completionOrder (targets : list GitHubRepo.t)
  (completion : list nat) : Prop :=
  Permutation completion (seq 0 (List.length targets)).

(** ** The evaluation service ([src/services/geminiService.ts]) *)

Inductive HiringTier : Type :=
  | ELITE
  | STRONG_HIRE
  | HIREABLE
  | NEEDS_IMPROVEMENT
  | REJECT.

(** The text of each member of the enumeration. *)
Definition HiringTier_value (tier : HiringTier) : string :=
  match tier with
  | ELITE => "Elite"
  | STRONG_HIRE => "Strong Hire"
  | HIREABLE => "Hireable"
  | NEEDS_IMPROVEMENT => "Needs Improvement"
  | REJECT => "Reject"
  end.

(** [tier] is a text at run time: the parsed answer of the model is not
    checked against the enumeration. *)
Module AIEvaluation.
Record t : Type := mk {
  tier : string;
  strengths : list string;
  risks : list string;
  verdict : string;
  recommendations : list string
}.
End AIEvaluation.

(** An entry of [repoAnalysis]. *)
Module RepoAnalysis.
Record t : Type := mk {
  name : string;
  stars : N;
  readme_snippet : string;
  has_pages : bool;
  description : option string
}.
End RepoAnalysis.


(** The object returned when the audit fails. *)
Definition fallbackEvaluation (metrics : ScoringMetrics.t) : AIEvaluation.t :=
  {| AIEvaluation.tier :=
       if (70 <? ScoringMetrics.totalScore metrics)%Z
       then HiringTier_value STRONG_HIRE
       else HiringTier_value NEEDS_IMPROVEMENT;
     AIEvaluation.strengths := ["Quantitative threshold met"%string];
     AIEvaluation.risks := ["Qualitative audit failed (API)"%string];
     AIEvaluation.verdict :=
       "Fallback: Statistical analysis suggests viable candidate.";
     AIEvaluation.recommendations :=
       ["Audit READMEs manually"; "Validate commit history"]%string |}.

(** [client] is the outcome of building the client, which happens before
    the [try]; [audit] is the outcome of the request to the model followed
    by [JSON.parse] of its answer, both inside the [try]. *)
Definition generateAIEvaluation (client : Settled unit)
  (audit : Settled AIEvaluation.t) (metrics : ScoringMetrics.t)
  : Settled AIEvaluation.t :=
  match client with
  | Rejected e => Rejected e
  | Fulfilled _ =>
      match audit with
      | Fulfilled evaluation => Fulfilled evaluation
      | Rejected _ => Fulfilled (fallbackEvaluation metrics)
      end
  end.

(** ** The application (the component [App]) *)

(** [l.slice(-n)]: the last [n] elements. *)
Definition Array_slice_last {A : Type} (n : nat) (l : list A) : list A :=
  skipn (List.length l - n) l.

(** The updater that [addLog msg] hands to [setLogs]. *)
Definition addLog (msg : string) (prev : list string) : list string :=
  Array_slice_last 4 prev ++ [("> " ++ msg)%string].

(** The value of the bar labelled Complexity. *)
Definition complexityShown (metrics : ScoringMetrics.t) : Z :=
  if (0 <? ScoringMetrics.totalScore metrics - 65)%Z then 10%Z else 5%Z.

(** The class of the status text. *)
Definition statusClass (metrics : ScoringMetrics.t) : string :=
  if (ScoringMetrics.daysSinceLastActivity metrics <? 14)%Z
  then "text-green-500" else "text-amber-500".

(** The width of the activity bar, in percent. *)
Definition pulseWidth (metrics : ScoringMetrics.t) : R :=
  Math_max 5
    (100 - IZR (ScoringMetrics.daysSinceLastActivity metrics) / 60 * 100).

(** [String(n)] for a count. *)
Definition Number_toString (n : nat) : string :=
  NilEmpty.string_of_uint (Nat.to_uint n).

Module AppData.
Record t : Type := mk {
  profile : GitHubProfile.t;
  repos : list GitHubRepo.t;
  metrics : ScoringMetrics.t;
  aiEval : AIEvaluation.t
}.
End AppData.

Module AppState.
Record t : Type := mk {
  username : string;
  loading : bool;
  logs : list string;
  error : option string;
  data : option AppData.t
}.
End AppState.

(** [err.message || fallback] *)
Definition messageOr (message fallback : string) : string :=
  if String.eqb message EmptyString then fallback else message.

Section HandleAnalyze.
(** [String.prototype.trim], the host and the outcomes of the awaits. *)
Variable trim : string -> string.
Variable tza : Z -> bool -> Z.
Variable clock : nat -> Z.
Variable net : Network.
Variable completion : list nat.
Variable client : Settled unit.
Variable audit : Settled AIEvaluation.t.

Definition failed (s : AppState.t) (logs : list string) (message : string)
  : AppState.t :=
  {| AppState.username := AppState.username s;
     AppState.loading := false;
     AppState.logs := logs;
     AppState.error :=
       Some (messageOr message
               "Audit Interrupted: Unexpected Hardware/API Exception.");
     AppState.data := None |}.

(** The state once the handler has run to its end, from the state [s] in
    which the form was submitted. *)
Definition handleAnalyze (s : AppState.t) : AppState.t :=
  let username := AppState.username s in
  if String.eqb (trim username) EmptyString then s
  else
    let logs0 := ["Initializing Audit Engine v4.0.1..."%string] in
    let logs1 :=
      addLog ("Connecting to GitHub API for @" ++ username ++ "...") logs0 in
    match fetchGitHubData net username completion with
    | Rejected e => failed s logs1 e
    | Fulfilled fetched =>
        let profile := GitHubData.profile fetched in
        let repos := GitHubData.repos fetched in
        let topReadmes := GitHubData.topReadmes fetched in
        let logs2 :=
          addLog ("Processing " ++ Number_toString (List.length repos)
                  ++ " repositories...") logs1 in
        let metrics := calculateHireabilityScore tza clock profile repos in
        let logs3 := addLog "Identifying high-value project READMEs..." logs2 in
        let logs4 :=
          addLog ("Feeding Forensic Engine with "
                  ++ Number_toString (List.length (JsObject.keys topReadmes))
                  ++ " README samples...") logs3 in
        match generateAIEvaluation client audit metrics with
        | Rejected e => failed s logs4 e
        | Fulfilled aiEval =>
            {| AppState.username := username;
               AppState.loading := false;
               AppState.logs :=
                 addLog "Audit Complete. Generating Verdict." logs4;
               AppState.error := None;
               AppState.data :=
                 Some {| AppData.profile := profile;
                         AppData.repos := repos;
                         AppData.metrics := metrics;
                         AppData.aiEval := aiEval |} |}
        end
    end.
End HandleAnalyze.

(** ** Sample networks *)

Module SampleNet.

Definition okResponse {A : Type} (value : A) : Response A :=
  mkResponse 200 "OK" (Fulfilled value).

Definition notFound {A : Type} : Response A :=
  mkResponse 404 "Not Found" (Rejected "Unexpected token").

(** One short page of seven repositories; a README for the repositories
    "a" and "g" only. *)
Definition net0 : Network :=
  {| users := fun _ => Fulfilled (okResponse Sample.tenFollowers);
     userRepos := fun _ page =>
       if (page =? 1)%Z then Fulfilled (okResponse Sample.threeLanguages)
       else Fulfilled (okResponse []);
     readme := fun _ name _ =>
       if String.eqb name "a" then Fulfilled (okResponse "# a"%string)
       else if String.eqb name "g" then Fulfilled (okResponse "# g"%string)
       else Fulfilled notFound |}.

(** The profile does not exist. *)
Definition netMissing : Network :=
  {| users := fun _ => Fulfilled notFound;
     userRepos := fun _ _ => Fulfilled (okResponse []);
     readme := fun _ _ _ => Fulfilled notFound |}.

(** As [net0], with every README request rejected. *)
Definition netNoReadme : Network :=
  {| users := users net0;
     userRepos := userRepos net0;
     readme := fun _ _ _ => Rejected "Failed to fetch" |}.

Definition fetched0 : GitHubData.t :=
  {| GitHubData.profile := Sample.tenFollowers;
     GitHubData.repos := Sample.threeLanguages;
     GitHubData.topReadmes := [("a", "# a")]%string |}.

End SampleNet.

(** ** Facts about the runtime *)

Section DateFacts.
Local Open Scope Z_scope.

Lemma DayFromYear_step (y : Z) :
  DayFromYear (y + 1) = DayFromYear y + DaysInYear y.
Proof.
  unfold DayFromYear, DaysInYear, isLeap.
  replace (y + 1 - 1969) with (y - 1968) by lia.
  replace (y + 1 - 1901) with (y - 1900) by lia.
  replace (y + 1 - 1601) with (y - 1600) by lia.
  destruct (Z.eqb_spec (y mod 4) 0); destruct (Z.eqb_spec (y mod 100) 0);
    destruct (Z.eqb_spec (y mod 400) 0); cbn [andb orb negb];
    Z.div_mod_to_equations; lia.
Qed.

(** [YearFromTime t] is the year that contains [t]. *)
Lemma YearFromTime_spec (t : Z) :
  DayFromYear (YearFromTime t) <= Day t < DayFromYear (YearFromTime t + 1).
Proof.
  unfold YearFromTime. set (d := Day t). clearbody d.
  set (y0 := 1970 + d * 10000 / 3652425).
  assert (Hlo : DayFromYear (y0 - 1) <= d)
    by (unfold DayFromYear, y0; Z.div_mod_to_equations; lia).
  assert (Hhi : d < DayFromYear (y0 + 2))
    by (unfold DayFromYear, y0; Z.div_mod_to_equations; lia).
  destruct (Z.ltb_spec d (DayFromYear y0)).
  - replace (y0 - 1 + 1) with y0 by lia. lia.
  - destruct (Z.leb_spec (DayFromYear (y0 + 1)) d).
    + replace (y0 + 1 + 1) with (y0 + 2) by lia. lia.
    + lia.
Qed.

Lemma MonthFromTime_range (t : Z) : 0 <= MonthFromTime t <= 11.
Proof.
  unfold MonthFromTime.
  repeat match goal with
         | |- context [if ?b then _ else _] => destruct b
         end; lia.
Qed.

(** Setting the day of the month to the current one moved by [k] days
    moves the day number by [k]. *)
Lemma MakeDay_shift (t k : Z) :
  MakeDay (YearFromTime t) (MonthFromTime t) (DateFromTime t + k)
  = Day t + k.
Proof.
  pose proof (MonthFromTime_range t) as Hm.
  unfold MakeDay, DateFromTime, DayWithinYear, InLeapYear.
  rewrite Z.div_small, Z.mod_small by lia.
  rewrite Z.add_0_r. lia.
Qed.

(** On a host whose zone has a fixed offset, [d.setDate(d.getDate() + k)]
    moves [d] by [k] whole days. *)
Lemma setDate_fixed_offset (off t k : Z) :
  setDate (fun _ _ => off) t (getDate (fun _ _ => off) t + k)
  = t + k * msPerDay.
Proof.
  unfold setDate, getDate, LocalTime, UTC, MakeDate.
  rewrite MakeDay_shift. unfold Day, TimeWithinDay.
  pose proof (Z.div_mod (t + off) msPerDay) as Hdm.
  assert (msPerDay <> 0) as Hne by (unfold msPerDay; lia).
  specialize (Hdm Hne). nia.
Qed.
End DateFacts.

Section MathFacts.
Local Open Scope R_scope.

Lemma Math_round_IZR (z : Z) : Math_round (IZR z) = z.
Proof. unfold Math_round. apply Zfloor_eq. lra. Qed.

Lemma Math_round_le (x y : R) :
  x <= y -> (Math_round x <= Math_round y)%Z.
Proof. intros H. unfold Math_round. apply Zfloor_le. lra. Qed.

Lemma Math_round_between (lo hi : Z) (x : R) :
  IZR lo <= x <= IZR hi -> (lo <= Math_round x <= hi)%Z.
Proof.
  intros [Hlo Hhi]. split.
  - rewrite <- (Math_round_IZR lo). now apply Math_round_le.
  - rewrite <- (Math_round_IZR hi). now apply Math_round_le.
Qed.

Lemma Math_round_eq (z : Z) (x : R) :
  IZR z - / 2 <= x < IZR z + / 2 -> Math_round x = z.
Proof. intros H. unfold Math_round. apply Zfloor_eq. lra. Qed.

Lemma ln_10_pos : 0 < ln 10.
Proof. rewrite <- ln_1. apply ln_increasing; lra. Qed.

Lemma Math_log10_1 : Math_log10 1 = 0.
Proof. unfold Math_log10. rewrite ln_1. lra. Qed.

Lemma Math_log10_nonneg (x : R) : 1 <= x -> 0 <= Math_log10 x.
Proof.
  intros Hx. unfold Math_log10.
  apply Rmult_le_pos.
  - destruct Hx as [Hx | <-].
    + left. rewrite <- ln_1. apply ln_increasing; lra.
    + rewrite ln_1. lra.
  - left. apply Rinv_0_lt_compat, ln_10_pos.
Qed.

Lemma Math_min_bounds (cap x : R) :
  0 <= cap -> 0 <= x -> 0 <= Math_min cap x <= cap.
Proof.
  intros Hc Hx. unfold Math_min. split.
  - now apply Rmin_glb.
  - apply Rmin_l.
Qed.

Lemma numN_nonneg (n : N) : 0 <= numN n.
Proof. unfold numN. apply IZR_le. lia. Qed.

End MathFacts.

(** On a host with a fixed offset whose clock stands still, the start of
    the trailing window is 90 whole days before the clock value. *)
Lemma ninetyDaysAgo_fixed_offset (off : Z) (clock : nat -> Z) (t : Z) :
  clockFixedAt clock t ->
  ninetyDaysAgo (fun _ _ => off) clock = (t - 90 * msPerDay)%Z.
Proof.
  intros Hfix. unfold ninetyDaysAgo, now. rewrite !Hfix.
  change (getDate (fun _ _ => off) t - 90)%Z
    with (getDate (fun _ _ => off) t + (- 90))%Z.
  rewrite setDate_fixed_offset. lia.
Qed.

Example toISOString_leap_day :
  toISOString 1709210096789 = "2024-02-29T12:34:56.789Z"%string.
Proof. reflexivity. Qed.

Example toISOString_before_epoch :
  toISOString (-1) = "1969-12-31T23:59:59.999Z"%string.
Proof. reflexivity. Qed.

Section SortFacts.
Context {A : Type} (cmp : A -> A -> Z).

Lemma sort_insert_In (x y : A) (l : list A) :
  In y (sort_insert cmp x l) <-> y = x \/ In y l.
Proof.
  induction l as [|z l IH]; simpl.
  - intuition congruence.
  - destruct (cmp x z <=? 0)%Z; simpl; rewrite ?IH; intuition congruence.
Qed.

Lemma Array_sort_In (y : A) (l : list A) :
  In y (Array_sort cmp l) <-> In y l.
Proof.
  induction l as [|x l IH]; simpl; [tauto|].
  rewrite sort_insert_In, IH. intuition congruence.
Qed.

Lemma sort_insert_length (x : A) (l : list A) :
  List.length (sort_insert cmp x l) = S (List.length l).
Proof.
  induction l as [|z l IH]; simpl; [reflexivity|].
  destruct (cmp x z <=? 0)%Z; simpl; congruence.
Qed.

Lemma Array_sort_length (l : list A) :
  List.length (Array_sort cmp l) = List.length l.
Proof.
  induction l as [|x l IH]; simpl; [reflexivity|].
  rewrite sort_insert_length. congruence.
Qed.
End SortFacts.

Section SetFacts.
Context {A : Type} (eqb : A -> A -> bool).
Hypothesis eqb_spec : forall a b, eqb a b = true <-> a = b.

Lemma Set_has_In (s : list A) (x : A) : Set_has eqb s x = true <-> In x s.
Proof.
  unfold Set_has. rewrite existsb_exists. split.
  - intros (y & Hy & E). apply eqb_spec in E. now subst.
  - intros H. exists x. split; [assumption|]. now apply eqb_spec.
Qed.

Lemma Set_add_In (s : list A) (x y : A) :
  In y (Set_add eqb s x) <-> In y s \/ y = x.
Proof.
  unfold Set_add. destruct (Set_has eqb s x) eqn:E.
  - apply Set_has_In in E. intuition congruence.
  - rewrite in_app_iff. simpl. intuition congruence.
Qed.

Lemma Set_add_NoDup (s : list A) (x : A) :
  NoDup s -> NoDup (Set_add eqb s x).
Proof.
  intros Hs. unfold Set_add. destruct (Set_has eqb s x) eqn:E; [assumption|].
  assert (~ In x s) as Hx.
  { intros Hin. apply Set_has_In in Hin. congruence. }
  clear E. induction Hs as [|z s Hz Hs IH]; simpl.
  - constructor; [tauto | constructor].
  - constructor.
    + rewrite in_app_iff. simpl in *. intuition congruence.
    + apply IH. simpl in Hx. tauto.
Qed.

Lemma fold_Set_add_In (l s : list A) (y : A) :
  In y (fold_left (Set_add eqb) l s) <-> In y s \/ In y l.
Proof.
  revert s. induction l as [|x l IH]; intros s; simpl; [tauto|].
  rewrite IH, Set_add_In. intuition congruence.
Qed.

Lemma fold_Set_add_NoDup (l s : list A) :
  NoDup s -> NoDup (fold_left (Set_add eqb) l s).
Proof.
  revert s. induction l as [|x l IH]; intros s Hs; simpl; [assumption|].
  apply IH, Set_add_NoDup, Hs.
Qed.

Lemma new_Set_In (l : list A) (y : A) : In y (new_Set eqb l) <-> In y l.
Proof. unfold new_Set. rewrite fold_Set_add_In. simpl. tauto. Qed.

Lemma new_Set_NoDup (l : list A) : NoDup (new_Set eqb l).
Proof. apply fold_Set_add_NoDup. constructor. Qed.
End SetFacts.

(** ** Facts about the engine *)

Lemma Math_floor_div_floor (a b : Z) :
  (0 < b)%Z -> Math_floor_div a b = Zfloor (IZR a / IZR b).
Proof.
  intros Hb. unfold Math_floor_div. symmetry. apply Zfloor_eq.
  assert (0 < IZR b)%R as Hb' by now apply IZR_lt.
  pose proof (Z.div_mod a b ltac:(lia)) as Hdm.
  pose proof (Z.mod_pos_bound a b Hb) as [Hr0 Hr1].
  apply IZR_le in Hr0. apply IZR_lt in Hr1.
  assert (IZR a = IZR b * IZR (a / b) + IZR (a mod b))%R as Ha
    by now rewrite <- mult_IZR, <- plus_IZR, <- Hdm.
  replace (IZR a / IZR b)%R with (IZR (a / b) + IZR (a mod b) / IZR b)%R
    by (rewrite Ha; field; lra).
  assert (0 <= IZR (a mod b) / IZR b < 1)%R as [H0 H1].
  { split.
    - apply Rmult_le_pos; [assumption | left; now apply Rinv_0_lt_compat].
    - apply Rmult_lt_reg_r with (IZR b); [assumption|].
      unfold Rdiv. rewrite Rmult_assoc, Rinv_l by lra. lra. }
  lra.
Qed.

Section EngineFacts.
Variable tza : Z -> bool -> Z.
Variable clock : nat -> Z.
Variable profile : GitHubProfile.t.
Variable repos : list GitHubRepo.t.

(** The first element of the sorted copy carries the most recent push. *)
Lemma sortedByPush_first (first : GitHubRepo.t) (rest : list GitHubRepo.t) :
  sortedByPush repos = first :: rest ->
  spec_mostRecentPush repos (GitHubRepo.pushed_at first).
Proof.
  unfold sortedByPush. clear tza clock profile.
  revert first rest.
  induction repos as [|x l IH]; intros first rest; simpl; [discriminate|].
  destruct (Array_sort byPushDesc l) as [|y s] eqn:Es; simpl.
  - intros [= <- <-].
    assert (l = []) as ->.
    { apply length_zero_iff_nil.
      rewrite <- (Array_sort_length byPushDesc), Es. reflexivity. }
    split; [exists x; simpl; tauto|].
    intros r [<- | []]. lia.
  - specialize (IH y s eq_refl) as [_ IHmax].
    unfold byPushDesc at 1.
    destruct (Z.leb_spec (GitHubRepo.pushed_at y - GitHubRepo.pushed_at x) 0);
      intros [= <- <-].
    + split; [exists x; simpl; tauto|].
      intros r [<- | Hr]; [lia|]. specialize (IHmax r Hr). lia.
    + split.
      * exists y. split; [|reflexivity]. right.
        apply (Array_sort_In byPushDesc). rewrite Es. simpl. tauto.
      * intros r [<- | Hr]; [lia|]. now apply IHmax.
Qed.

Lemma spec_mostRecentPush_unique (m m' : Z) :
  spec_mostRecentPush repos m -> spec_mostRecentPush repos m' -> m = m'.
Proof.
  intros [(r & Hr & <-) Hm] [(r' & Hr' & <-) Hm'].
  specialize (Hm r' Hr'). specialize (Hm' r Hr). lia.
Qed.

Lemma sortedByPush_nonempty :
  repos <> [] -> exists first rest, sortedByPush repos = first :: rest.
Proof.
  intros Hne. unfold sortedByPush.
  destruct (Array_sort byPushDesc repos) as [|y s] eqn:Es; [|eauto].
  exfalso. apply Hne, length_zero_iff_nil.
  rewrite <- (Array_sort_length byPushDesc), Es. reflexivity.
Qed.

(** What the guarded block assigns when there is a repository. *)
Lemma activityVars_latest (m : Z) :
  spec_mostRecentPush repos m ->
  activityVars tza clock repos
  = (toISOString m,
     ((now clock - m) / 86400000)%Z,
     Z.of_nat (List.length
                 (filter (pushedSince (ninetyDaysAgo tza clock)) repos))).
Proof.
  intros Hm.
  assert (repos <> []) as Hne.
  { destruct Hm as [(r & Hr & _) _]. intros ->. destruct Hr. }
  destruct (sortedByPush_nonempty Hne) as (first & rest & Es).
  pose proof (sortedByPush_first _ _ Es) as Hfirst.
  rewrite (spec_mostRecentPush_unique _ _ Hm Hfirst).
  unfold activityVars. rewrite Es.
  destruct repos; [congruence|]. reflexivity.
Qed.

Lemma activityVars_empty :
  repos = [] -> activityVars tza clock repos = ("N/A"%string, 999%Z, 0%Z).
Proof. intros ->. reflexivity. Qed.

Lemma recentActivityVelocity_nonneg :
  (0 <= recentActivityVelocity tza clock repos)%Z.
Proof.
  unfold recentActivityVelocity, activityVars.
  destruct (0 <? List.length repos)%nat; [|simpl; lia].
  destruct (sortedByPush repos); simpl; lia.
Qed.

Lemma daysSinceLastActivity_nonneg :
  (forall r, In r repos -> (GitHubRepo.pushed_at r <= now clock)%Z) ->
  (0 <= daysSinceLastActivity tza clock repos)%Z.
Proof.
  intros Hpast. unfold daysSinceLastActivity.
  destruct (sortedByPush repos) as [|first rest] eqn:Es.
  - assert (repos = []) as Hnil.
    { apply length_zero_iff_nil. unfold sortedByPush in Es.
      rewrite <- (Array_sort_length byPushDesc), Es. reflexivity. }
    rewrite (activityVars_empty Hnil). simpl. lia.
  - pose proof (sortedByPush_first _ _ Es) as Hm.
    rewrite (activityVars_latest _ Hm). simpl.
    destruct Hm as [(r & Hr & <-) _]. specialize (Hpast r Hr).
    apply Z.div_pos; lia.
Qed.
End EngineFacts.

Section Bounds.
Variable tza : Z -> bool -> Z.
Variable clock : nat -> Z.
Variable profile : GitHubProfile.t.
Variable repos : list GitHubRepo.t.
Local Open Scope R_scope.

Lemma recencyMultiplier_nonneg : 0 <= recencyMultiplier tza clock repos.
Proof.
  unfold recencyMultiplier.
  destruct (daysSinceLastActivity tza clock repos =? 0)%Z; [lra|].
  apply Rmax_l.
Qed.

Lemma recencyMultiplier_le_1 :
  (0 <= daysSinceLastActivity tza clock repos)%Z ->
  recencyMultiplier tza clock repos <= 1.
Proof.
  intros Hd. unfold recencyMultiplier.
  destruct (daysSinceLastActivity tza clock repos =? 0)%Z; [lra|].
  apply IZR_le in Hd. apply Rmax_lub; lra.
Qed.

Lemma velocityFactor_bounds :
  0 <= Math_min 10 (IZR (recentActivityVelocity tza clock repos)) * 3 <= 30.
Proof.
  pose proof (recentActivityVelocity_nonneg tza clock repos) as Hv.
  apply IZR_le in Hv.
  pose proof (Math_min_bounds 10 _ ltac:(lra) Hv). lra.
Qed.

Lemma activityScore_nonneg : 0 <= activityScore tza clock repos.
Proof.
  unfold activityScore.
  apply Rmult_le_pos;
    [apply velocityFactor_bounds | apply recencyMultiplier_nonneg].
Qed.

Lemma activityScore_le_30 :
  (0 <= daysSinceLastActivity tza clock repos)%Z ->
  activityScore tza clock repos <= 30.
Proof.
  intros Hd. unfold activityScore.
  pose proof velocityFactor_bounds as Hv.
  pose proof recencyMultiplier_nonneg as H0.
  pose proof (recencyMultiplier_le_1 Hd) as H1.
  nra.
Qed.

Lemma ratio_bounds (a b : nat) :
  (a <= b)%nat -> (0 < b)%nat -> 0 <= INR a / INR b <= 1.
Proof.
  intros Hab Hb. apply le_INR in Hab. apply lt_INR in Hb. simpl in Hb.
  pose proof (pos_INR a) as Ha.
  assert (0 < / INR b) as Hi by now apply Rinv_0_lt_compat.
  split.
  - apply Rmult_le_pos; lra.
  - apply Rmult_le_reg_r with (INR b); [assumption|].
    unfold Rdiv. rewrite Rmult_assoc, Rinv_l by lra. lra.
Qed.

Lemma originalityRatio_bounds : 0 <= originalityRatio repos <= 1.
Proof.
  unfold originalityRatio, numLen.
  destruct (Nat.ltb_spec 0 (List.length repos)); [|lra].
  apply ratio_bounds; [apply filter_length_le | assumption].
Qed.

Lemma starBonus_bounds : 0 <= starBonus repos <= 5.
Proof.
  unfold starBonus. apply Math_min_bounds; [lra|].
  pose proof (numN_nonneg (totalStars repos)).
  pose proof (Math_log10_nonneg (numN (totalStars repos) + 1) ltac:(lra)).
  lra.
Qed.

Lemma languageBonus_bounds : 0 <= languageBonus repos <= 10.
Proof.
  unfold languageBonus. apply Math_min_bounds; [lra|].
  pose proof (pos_INR (Set_size (languages repos))). lra.
Qed.

Lemma docRatio_bounds : 0 <= docRatio repos <= 1.
Proof.
  unfold docRatio, numLen.
  destruct (Nat.ltb_spec 0 (List.length (originalRepos repos))) as [Hn|]; [|lra].
  assert (reposWithDesc repos + featureUsage repos
          <= List.length (originalRepos repos) * 2)%nat as Hle.
  { unfold reposWithDesc, featureUsage.
    pose proof (filter_length_le
                  (fun r => (20 <? descriptionLength r)%nat)
                  (originalRepos repos)).
    pose proof (filter_length_le usesFeatures (originalRepos repos)).
    lia. }
  rewrite <- (mult_INR _ 2).
  apply ratio_bounds; [assumption | lia].
Qed.

Lemma followerScore_bounds : 0 <= followerScore profile <= 5.
Proof.
  unfold followerScore. apply Math_min_bounds; [lra|].
  pose proof (numN_nonneg (GitHubProfile.followers profile)). lra.
Qed.

Lemma accountAgeYears_nonneg :
  (GitHubProfile.created_at profile <= now clock)%Z ->
  0 <= accountAgeYears clock profile.
Proof.
  intros Hc. unfold accountAgeYears.
  assert (0 <= IZR (now clock - GitHubProfile.created_at profile))
    by (apply IZR_le; lia).
  apply Rmult_le_pos; [assumption|].
  left. apply Rinv_0_lt_compat. lra.
Qed.

Lemma ageScore_le_5 : ageScore clock profile <= 5.
Proof. unfold ageScore, Math_min. apply Rbasic_fun.Rmin_l. Qed.

Lemma avgSize_nonneg : 0 <= avgSize repos.
Proof.
  unfold avgSize.
  destruct (Nat.ltb_spec 0 (List.length (originalRepos repos))) as [Hn|]; [|lra].
  apply Rmult_le_pos; [apply numN_nonneg|].
  left. apply Rinv_0_lt_compat. unfold numLen.
  apply lt_INR in Hn. simpl in Hn. assumption.
Qed.

Lemma complexityScore_bounds : 0 <= complexityScore repos <= 10.
Proof.
  unfold complexityScore. apply Math_min_bounds; [lra|].
  pose proof avgSize_nonneg.
  pose proof (Math_log10_nonneg (avgSize repos + 1) ltac:(lra)).
  lra.
Qed.

(** The sum of the sub-scores is not negative once the account is not
    younger than the clock. *)
Lemma scoreSum_nonneg :
  (GitHubProfile.created_at profile <= now clock)%Z ->
  0 <= scoreSum tza clock profile repos.
Proof.
  intros Hc. unfold scoreSum, originalityScore, diversityScore,
    documentationScore, followerSignal, ageScore.
  pose proof activityScore_nonneg.
  pose proof originalityRatio_bounds.
  pose proof starBonus_bounds.
  pose proof languageBonus_bounds.
  pose proof docRatio_bounds.
  pose proof followerScore_bounds.
  pose proof complexityScore_bounds.
  pose proof (accountAgeYears_nonneg Hc) as Ha.
  pose proof (Math_min_bounds 5 _ ltac:(lra) Ha).
  lra.
Qed.
End Bounds.

(** ** The sample inputs, evaluated *)

Ltac eval_minmax :=
  unfold Math_min, Math_max, Rmin, Rmax;
  repeat match goal with
         | |- context [Rle_dec ?a ?b] => destruct (Rle_dec a b)
         end;
  try lra.

Section EmptyList.
Variable tza : Z -> bool -> Z.
Variable clock : nat -> Z.
Local Open Scope R_scope.

Lemma empty_activityScore : activityScore tza clock [] = 0.
Proof.
  unfold activityScore.
  change (recentActivityVelocity tza clock []) with 0%Z.
  replace (Math_min 10 0) with 0 by eval_minmax. lra.
Qed.

Lemma empty_originalityScore : originalityScore [] = 0.
Proof. unfold originalityScore, originalityRatio. simpl. lra. Qed.

Lemma empty_starBonus : starBonus [] = 0.
Proof.
  unfold starBonus. change (numN (totalStars [])) with 0.
  rewrite Rplus_0_l, Math_log10_1. eval_minmax.
Qed.

Lemma empty_languageBonus : languageBonus [] = 0.
Proof.
  unfold languageBonus. change (INR (Set_size (languages []))) with 0.
  eval_minmax.
Qed.

Lemma empty_diversityScore : diversityScore [] = 0.
Proof.
  unfold diversityScore. rewrite empty_starBonus, empty_languageBonus. lra.
Qed.

Lemma empty_documentationScore : documentationScore [] = 0.
Proof. unfold documentationScore, docRatio. simpl. lra. Qed.

Lemma empty_complexityScore : complexityScore [] = 0.
Proof.
  unfold complexityScore. change (avgSize []) with 0.
  rewrite Rplus_0_l, Math_log10_1. eval_minmax.
Qed.
End EmptyList.

Section Evaluated.
Import Sample.
Local Open Scope R_scope.





Lemma fromTheFuture_age : accountAgeYears clock0 fromTheFuture = -2.
Proof.
  unfold accountAgeYears.
  replace (now clock0 - GitHubProfile.created_at fromTheFuture)%Z
    with (-63072000000)%Z by (vm_compute; reflexivity).
  lra.
Qed.

Lemma fromTheFuture_followerSignal : followerSignal clock0 fromTheFuture = -2.
Proof.
  unfold followerSignal, ageScore, followerScore.
  rewrite fromTheFuture_age.
  replace (numN (GitHubProfile.followers fromTheFuture)) with 0
    by (vm_compute; reflexivity).
  eval_minmax.
Qed.
End Evaluated.

Section EvaluatedStale.
Import Sample.
Local Open Scope R_scope.

Lemma oneStale_days : daysSinceLastActivity utc clock0 oneStale = 200%Z.
Proof. vm_compute. reflexivity. Qed.

Lemma oneStale_velocity : recentActivityVelocity utc clock0 oneStale = 0%Z.
Proof. vm_compute. reflexivity. Qed.

Lemma oneStale_activityScore : activityScore utc clock0 oneStale = 0.
Proof.
  unfold activityScore. rewrite oneStale_velocity.
  replace (Math_min 10 0) with 0 by eval_minmax. lra.
Qed.

Lemma oneStale_originalityScore : originalityScore oneStale = 20.
Proof.
  unfold originalityScore, originalityRatio, numLen. simpl. lra.
Qed.

Lemma oneStale_starBonus : starBonus oneStale = 0.
Proof.
  unfold starBonus. change (numN (totalStars oneStale)) with 0.
  rewrite Rplus_0_l, Math_log10_1. eval_minmax.
Qed.

Lemma oneStale_languageBonus : languageBonus oneStale = 5 / 2.
Proof.
  unfold languageBonus.
  change (INR (Set_size (languages oneStale))) with 1.
  eval_minmax.
Qed.

Lemma oneStale_diversityScore : diversityScore oneStale = 5 / 2.
Proof.
  unfold diversityScore.
  rewrite oneStale_starBonus, oneStale_languageBonus. lra.
Qed.

Lemma oneStale_documentationScore : documentationScore oneStale = 0.
Proof. unfold documentationScore, docRatio, numLen. simpl. lra. Qed.

Lemma oneStale_complexityScore : complexityScore oneStale = 0.
Proof.
  unfold complexityScore.
  replace (avgSize oneStale) with 0
    by (unfold avgSize, numLen, numN; simpl; lra).
  rewrite Rplus_0_l, Math_log10_1. eval_minmax.
Qed.

Lemma tenFollowers_followerSignal :
  followerSignal clock0 tenFollowers = / 2.
Proof.
  unfold followerSignal, ageScore, followerScore, accountAgeYears.
  replace (now clock0 - GitHubProfile.created_at tenFollowers)%Z
    with 0%Z by (vm_compute; reflexivity).
  replace (numN (GitHubProfile.followers tenFollowers)) with 10
    by (vm_compute; reflexivity).
  eval_minmax.
Qed.

Lemma oneStale_scoreSum : scoreSum utc clock0 tenFollowers oneStale = 23.
Proof.
  unfold scoreSum.
  rewrite oneStale_activityScore, oneStale_originalityScore,
    oneStale_diversityScore, oneStale_documentationScore,
    tenFollowers_followerSignal, oneStale_complexityScore.
  lra.
Qed.

Lemma oneStale_totalScore :
  ScoringMetrics.totalScore
    (calculateHireabilityScore utc clock0 tenFollowers oneStale) = 23%Z.
Proof.
  cbn [calculateHireabilityScore ScoringMetrics.totalScore].
  unfold totalScore. rewrite oneStale_scoreSum. apply Math_round_IZR.
Qed.

Lemma oneStale_sumOfRounded :
  sumOfRounded utc clock0 tenFollowers oneStale = 24%Z.
Proof.
  unfold sumOfRounded, calculateHireabilityScore.
  cbn [ScoringMetrics.activityScore ScoringMetrics.originalityScore
       ScoringMetrics.diversityScore ScoringMetrics.documentationScore
       ScoringMetrics.followerSignal].
  rewrite oneStale_activityScore, oneStale_originalityScore,
    oneStale_diversityScore, oneStale_documentationScore,
    tenFollowers_followerSignal, oneStale_complexityScore.
  rewrite (Math_round_eq 0 0), (Math_round_eq 20 20),
    (Math_round_eq 3 (5 / 2)), (Math_round_eq 1 (/ 2)) by lra.
  reflexivity.
Qed.

Lemma fromTheFuture_totalScore :
  ScoringMetrics.totalScore
    (calculateHireabilityScore utc clock0 fromTheFuture []) = (-2)%Z.
Proof.
  cbn [calculateHireabilityScore ScoringMetrics.totalScore].
  unfold totalScore, scoreSum.
  rewrite (empty_activityScore utc clock0), empty_originalityScore,
    empty_diversityScore, empty_documentationScore, empty_complexityScore,
    fromTheFuture_followerSignal.
  apply Math_round_eq. lra.
Qed.
End EvaluatedStale.

Section LanguageFacts.
Variable repos : list GitHubRepo.t.

Lemma sameValue_spec (a b : option string) :
  sameValue a b = true <-> a = b.
Proof.
  destruct a as [x|], b as [y|]; simpl;
    rewrite ?String.eqb_eq; intuition congruence.
Qed.

Lemma originalRepos_In (r : GitHubRepo.t) :
  In r (originalRepos repos) <-> In r repos /\ GitHubRepo.fork r = false.
Proof.
  unfold originalRepos. rewrite filter_In, negb_true_iff. tauto.
Qed.

Lemma truthy_Some (v : option string) :
  truthy v = true <-> exists s, v = Some s /\ s <> EmptyString.
Proof.
  destruct v as [s|]; simpl.
  - rewrite negb_true_iff, String.eqb_neq. split.
    + intros H. exists s. tauto.
    + intros (s' & [= <-] & H). exact H.
  - split; [discriminate | intros (s & H & _); discriminate].
Qed.

(** The set holds exactly the non-empty languages of the originals. *)
Lemma languages_In (v : option string) :
  In v (languages repos)
  <-> exists s, v = Some s /\ spec_languageOfOriginal repos s.
Proof.
  unfold languages.
  rewrite (new_Set_In sameValue sameValue_spec), filter_In, in_map_iff,
    truthy_Some.
  unfold spec_languageOfOriginal. split.
  - intros [(r & Hl & Hr) (s & -> & Hs)].
    apply originalRepos_In in Hr as [Hr Hf]. exists s.
    split; [reflexivity|]. split; [assumption|]. exists r. tauto.
  - intros (s & -> & Hs & r & Hr & Hf & Hl). split.
    + exists r. split; [assumption|]. apply originalRepos_In. tauto.
    + eauto.
Qed.

Lemma languages_NoDup : NoDup (languages repos).
Proof. apply (new_Set_NoDup sameValue sameValue_spec). Qed.

Lemma NoDup_map_Some (l : list string) : NoDup l -> NoDup (map Some l).
Proof.
  induction 1 as [|s l Hs Hl IH]; simpl; constructor; [|assumption].
  rewrite in_map_iff. intros (s' & [= ->] & Hin). contradiction.
Qed.

(** The size of the set is the number of distinct languages. *)
Lemma languages_size (n : nat) :
  spec_distinctLanguages repos n -> Set_size (languages repos) = n.
Proof.
  intros (l & Hnd & Hin & <-). unfold Set_size.
  rewrite <- (length_map Some l).
  apply Nat.le_antisymm; apply NoDup_incl_length.
  - apply languages_NoDup.
  - intros v Hv. apply languages_In in Hv as (s & -> & Hs).
    apply in_map, Hin, Hs.
  - now apply NoDup_map_Some.
  - intros v Hv. apply in_map_iff in Hv as (s & <- & Hs).
    apply languages_In. exists s. split; [reflexivity|]. now apply Hin.
Qed.

(** Some number is the number of distinct languages. *)
Lemma spec_distinctLanguages_total :
  exists n, spec_distinctLanguages repos n.
Proof.
  pose (unwrap := fun v : option string =>
                    match v with Some s => s | None => EmptyString end).
  exists (List.length (map unwrap (languages repos))).
  exists (map unwrap (languages repos)).
  assert (forall v, In v (languages repos) -> Some (unwrap v) = v) as Hsome.
  { intros v Hv. apply languages_In in Hv as (s & -> & _). reflexivity. }
  split; [|split; [|reflexivity]].
  - pose proof languages_NoDup as Hnd.
    induction (languages repos) as [|v l IH]; simpl; constructor.
    + inversion_clear Hnd as [|? ? Hv _].
      rewrite in_map_iff. intros (w & Hw & Hin). apply Hv.
      rewrite <- (Hsome v), <- Hw, (Hsome w); simpl; auto.
    + inversion_clear Hnd. apply IH; [|assumption].
      intros w Hw. apply Hsome. simpl. auto.
  - intros s. rewrite in_map_iff. split.
    + intros (v & <- & Hv).
      pose proof (Hsome v Hv) as E.
      apply languages_In in Hv as (s & -> & Hs). exact Hs.
    + intros Hs. exists (Some s). split; [reflexivity|].
      apply languages_In. eauto.
Qed.

Lemma fold_stars (l : list GitHubRepo.t) (acc : N) :
  fold_left (fun sum r => (sum + GitHubRepo.stargazers_count r)%N)
            (filter (fun r => negb (GitHubRepo.fork r)) l) acc
  = (acc + spec_starsOfOriginals l)%N.
Proof.
  revert acc. induction l as [|r l IH]; intros acc; simpl; [lia|].
  destruct (GitHubRepo.fork r); simpl; rewrite IH; lia.
Qed.

Lemma totalStars_spec : totalStars repos = spec_starsOfOriginals repos.
Proof. unfold totalStars, originalRepos. now rewrite fold_stars. Qed.
End LanguageFacts.

Lemma threeLanguages_distinct :
  spec_distinctLanguages Sample.threeLanguages 3.
Proof.
  exists ["Go"; "Rust"; "TypeScript"]%string.
  split; [|split; [|reflexivity]].
  - repeat constructor; simpl; intuition discriminate.
  - intros s. unfold spec_languageOfOriginal. split.
    + intros [<- | [<- | [<- | []]]]; (split; [discriminate|]).
      * eexists. split; [left; reflexivity | split; reflexivity].
      * eexists. split; [right; left; reflexivity | split; reflexivity].
      * eexists. split; [do 6 right; left; reflexivity | split; reflexivity].
    + intros (Hs & r & Hr & Hf & Hl). simpl in Hr.
      repeat (destruct Hr as [<- | Hr]; [simpl in Hf, Hl; try discriminate;
        injection Hl as <-; simpl; tauto|]).
      destruct Hr.
Qed.

Section DocumentationFacts.
Variable repos : list GitHubRepo.t.

Lemma length_filter_filter {A : Type} (p q : A -> bool) (l : list A) :
  List.length (filter q (filter p l))
  = List.length (filter (fun x => p x && q x) l).
Proof.
  induction l as [|x l IH]; simpl; [reflexivity|].
  destruct (p x); simpl; [|assumption].
  destruct (q x); simpl; congruence.
Qed.

Lemma reposWithDesc_spec : reposWithDesc repos = spec_describedOriginals repos.
Proof.
  unfold reposWithDesc, originalRepos, spec_describedOriginals.
  rewrite length_filter_filter. f_equal. apply filter_ext.
  intros r. unfold descriptionLength.
  destruct (GitHubRepo.description r); reflexivity.
Qed.

Lemma featureUsage_spec : featureUsage repos = spec_featureOriginals repos.
Proof.
  unfold featureUsage, originalRepos, spec_featureOriginals.
  rewrite length_filter_filter. f_equal. apply filter_ext.
  intros r. unfold usesFeatures.
  destruct (GitHubRepo.has_issues r), (GitHubRepo.has_pages r),
    (GitHubRepo.has_projects r); reflexivity.
Qed.
End DocumentationFacts.

Section ClockFacts.
Variable tza : Z -> bool -> Z.
Variable profile : GitHubProfile.t.
Variable repos : list GitHubRepo.t.

End ClockFacts.

(** The second read of the clock matters: with the same first read, a
    second read one millisecond later drops a repository pushed exactly 90
    days before the first read from the recent velocity. *)
Lemma second_clock_read_matters :
  now Sample.clock0 = now Sample.clockTick
  /\ recentActivityVelocity Sample.utc Sample.clock0 Sample.onTheEdge = 1%Z
  /\ recentActivityVelocity Sample.utc Sample.clockTick Sample.onTheEdge = 0%Z.
Proof. repeat split; vm_compute; reflexivity. Qed.

Lemma activityLevel_cases (gap velocity : Z) :
  let level :=
    if (gap <=? 7)%Z && (5 <=? velocity)%Z then HIGHLY_ACTIVE
    else if (gap <=? 30)%Z && (1 <=? velocity)%Z then MODERATELY_ACTIVE
    else INACTIVE in
  (level = HIGHLY_ACTIVE <-> (gap <= 7 /\ velocity >= 5)%Z)
  /\ (level = MODERATELY_ACTIVE
      <-> ~ (gap <= 7 /\ velocity >= 5)%Z /\ (gap <= 30 /\ velocity >= 1)%Z)
  /\ (level = INACTIVE
      <-> ~ (gap <= 7 /\ velocity >= 5)%Z
          /\ ~ (gap <= 30 /\ velocity >= 1)%Z).
Proof.
  cbn zeta.
  destruct (Z.leb_spec gap 7), (Z.leb_spec 5 velocity),
    (Z.leb_spec gap 30), (Z.leb_spec 1 velocity);
    cbn [andb]; repeat split; intros; try discriminate; try lia.
Qed.

Lemma forkIsLatest_mostRecent :
  spec_mostRecentPush Sample.forkIsLatest Sample.t0.
Proof.
  split.
  - eexists. split; [right; left; reflexivity | reflexivity].
  - intros r [<- | [<- | []]]; vm_compute; discriminate.
Qed.

Lemma pushedAhead_mostRecent :
  spec_mostRecentPush Sample.pushedAhead (Sample.t0 + Sample.days 900)%Z.
Proof.
  split.
  - eexists. split; [left; reflexivity | reflexivity].
  - intros r [<- | []]. vm_compute. discriminate.
Qed.

(** ** The properties of the specification *)




(** Claim C2.  For an empty repository list the engine returns a record
    with activity, originality, diversity, documentation and complexity
    scores 0 (before and after rounding), day gap 999, level INACTIVE,
    velocity 0 and the text N/A for the last push. *)
Theorem empty_list_sentinels
  (tza : Z -> bool -> Z) (clock : nat -> Z) (profile : GitHubProfile.t) :
  let m := calculateHireabilityScore tza clock profile [] in
  (activityScore tza clock [] = 0%R
   /\ originalityScore [] = 0%R
   /\ diversityScore [] = 0%R
   /\ documentationScore [] = 0%R
   /\ complexityScore [] = 0%R)
  /\ (ScoringMetrics.activityScore m = 0%Z
      /\ ScoringMetrics.originalityScore m = 0%Z
      /\ ScoringMetrics.diversityScore m = 0%Z
      /\ ScoringMetrics.documentationScore m = 0%Z
      /\ Math_round (complexityScore []) = 0%Z)
  /\ ScoringMetrics.daysSinceLastActivity m = 999%Z
  /\ ScoringMetrics.activityLevel m = INACTIVE
  /\ ScoringMetrics.recentActivityVelocity m = 0%Z
  /\ ScoringMetrics.lastCommitDate m = "N/A"%string.
Proof.
  cbn zeta. unfold calculateHireabilityScore. cbn [ScoringMetrics.activityScore
    ScoringMetrics.originalityScore ScoringMetrics.diversityScore
    ScoringMetrics.documentationScore ScoringMetrics.daysSinceLastActivity
    ScoringMetrics.activityLevel ScoringMetrics.recentActivityVelocity
    ScoringMetrics.lastCommitDate].
  rewrite (empty_activityScore tza clock), empty_originalityScore,
    empty_diversityScore, empty_documentationScore, empty_complexityScore.
  change 0%R with (IZR 0). rewrite Math_round_IZR.
  repeat split; reflexivity.
Qed.

(** Claim C3, as amended.  The total score is the rounding to the nearest
    integer of the sum of the six sub-scores before rounding; it is not the
    sum of the sub-scores rounded one by one (for a profile with ten
    followers and one stale repository in one language the total is 23 and
    that sum is 24); and it is not negative when the creation timestamp of
    the profile does not lie after the first read of the clock. *)
Theorem total_is_rounded_sum
  (tza : Z -> bool -> Z) (clock : nat -> Z)
  (profile : GitHubProfile.t) (repos : list GitHubRepo.t) :
  let m := calculateHireabilityScore tza clock profile repos in
  ScoringMetrics.totalScore m
  = Math_round (activityScore tza clock repos + originalityScore repos
                + diversityScore repos + documentationScore repos
                + followerSignal clock profile + complexityScore repos)
  /\ ScoringMetrics.totalScore
       (calculateHireabilityScore Sample.utc Sample.clock0
          Sample.tenFollowers Sample.oneStale)
     <> sumOfRounded Sample.utc Sample.clock0 Sample.tenFollowers
          Sample.oneStale
  /\ ((GitHubProfile.created_at profile <= now clock)%Z ->
      (0 <= ScoringMetrics.totalScore m)%Z).
Proof.
  cbn zeta. split; [reflexivity|]. split.
  - rewrite oneStale_totalScore, oneStale_sumOfRounded. discriminate.
  - intros Hc. cbn [calculateHireabilityScore ScoringMetrics.totalScore].
    unfold totalScore. rewrite <- (Math_round_IZR 0).
    apply Math_round_le, scoreSum_nonneg, Hc.
Qed.

(** Witness for [total_is_rounded_sum]: the account was created at the
    clock read. *)
Lemma total_is_rounded_sum_witness :
  (0 <= ScoringMetrics.totalScore
          (calculateHireabilityScore Sample.utc Sample.clock0
             Sample.tenFollowers Sample.oneStale))%Z.
Proof.
  apply (total_is_rounded_sum Sample.utc Sample.clock0 Sample.tenFollowers
           Sample.oneStale).
  vm_compute. discriminate.
Defined.

(** Claim C3, as stated, fails: for a profile created two years after the
    clock read and no repository, the total score is -2. *)
Lemma total_negative_counterexample :
  ~ (0 <= ScoringMetrics.totalScore
            (calculateHireabilityScore Sample.utc Sample.clock0
               Sample.fromTheFuture []))%Z.
Proof. rewrite fromTheFuture_totalScore. lia. Qed.

(** Claim C4.  For a repository list that is not empty, the activity score
    before rounding is min(10, recent velocity) x 3 x recency multiplier,
    where the velocity counts the repositories pushed since the start of
    the trailing window, the day gap is counted from the most recent push,
    and the multiplier is 1 for a day gap of 0 and max(0, 1 - gap/90)
    otherwise; it is 0 for a day gap of 90 and it is never negative. *)
Theorem activity_score_formula
  (tza : Z -> bool -> Z) (clock : nat -> Z)
  (profile : GitHubProfile.t) (repos : list GitHubRepo.t) :
  repos <> [] ->
  let m := calculateHireabilityScore tza clock profile repos in
  let gap := ScoringMetrics.daysSinceLastActivity m in
  let velocity := ScoringMetrics.recentActivityVelocity m in
  (activityScore tza clock repos
   = Rmin 10 (IZR velocity) * 3 * recencyMultiplier tza clock repos)%R
  /\ recencyMultiplier tza clock repos = spec_recency gap
  /\ (gap = 90%Z -> recencyMultiplier tza clock repos = 0%R)
  /\ (0 <= recencyMultiplier tza clock repos)%R
  /\ velocity
     = Z.of_nat (List.length
                   (filter (pushedSince (ninetyDaysAgo tza clock)) repos))
  /\ exists latest,
       spec_mostRecentPush repos latest
       /\ gap = Zfloor (IZR (now clock - latest) / IZR msPerDay).
Proof.
  intros Hne. cbn zeta.
  cbn [calculateHireabilityScore ScoringMetrics.daysSinceLastActivity
       ScoringMetrics.recentActivityVelocity].
  destruct (sortedByPush_nonempty repos Hne) as (first & rest & Hsorted).
  pose proof (sortedByPush_first repos first rest Hsorted) as Hlatest.
  pose proof (activityVars_latest tza clock repos _ Hlatest) as Hvars.
  split; [reflexivity|]. split; [reflexivity|].
  split; [|split; [|split]].
  - intros Hgap. unfold recencyMultiplier. rewrite Hgap. cbn [Z.eqb].
    unfold Math_max. rewrite Rmax_left; lra.
  - apply recencyMultiplier_nonneg.
  - unfold recentActivityVelocity. now rewrite Hvars.
  - exists (GitHubRepo.pushed_at first). split; [exact Hlatest|].
    unfold daysSinceLastActivity. rewrite Hvars. cbn [fst snd].
    apply Math_floor_div_floor. reflexivity.
Qed.

(** Witness for [activity_score_formula]: one repository pushed exactly 90
    days before the clock read has multiplier 0. *)
Lemma activity_score_formula_witness :
  recencyMultiplier Sample.utc Sample.clock0 Sample.onTheEdge = 0%R.
Proof.
  apply (activity_score_formula Sample.utc Sample.clock0 Sample.newcomer
           Sample.onTheEdge).
  - discriminate.
  - vm_compute. reflexivity.
Defined.

(** Claim C5.  For a repository list that is not empty, the day gap is
    the floor of the whole days between the clock read and the most recent
    push over all repositories, forks included; the level is HIGHLY_ACTIVE
    exactly when gap <= 7 and velocity >= 5, otherwise MODERATELY_ACTIVE
    exactly when gap <= 30 and velocity >= 1, otherwise INACTIVE. *)
Theorem last_activity_and_level
  (tza : Z -> bool -> Z) (clock : nat -> Z)
  (profile : GitHubProfile.t) (repos : list GitHubRepo.t) (latest : Z) :
  spec_mostRecentPush repos latest ->
  let m := calculateHireabilityScore tza clock profile repos in
  let gap := ScoringMetrics.daysSinceLastActivity m in
  let velocity := ScoringMetrics.recentActivityVelocity m in
  let level := ScoringMetrics.activityLevel m in
  gap = Zfloor (IZR (now clock - latest) / IZR msPerDay)
  /\ ScoringMetrics.lastCommitDate m = toISOString latest
  /\ velocity
     = Z.of_nat (List.length
                   (filter (pushedSince (ninetyDaysAgo tza clock)) repos))
  /\ (level = HIGHLY_ACTIVE <-> (gap <= 7 /\ velocity >= 5)%Z)
  /\ (level = MODERATELY_ACTIVE
      <-> ~ (gap <= 7 /\ velocity >= 5)%Z /\ (gap <= 30 /\ velocity >= 1)%Z)
  /\ (level = INACTIVE
      <-> ~ (gap <= 7 /\ velocity >= 5)%Z
          /\ ~ (gap <= 30 /\ velocity >= 1)%Z).
Proof.
  intros Hlatest. cbn zeta.
  cbn [calculateHireabilityScore ScoringMetrics.daysSinceLastActivity
       ScoringMetrics.recentActivityVelocity ScoringMetrics.activityLevel
       ScoringMetrics.lastCommitDate].
  split; [|split; [|split]].
  - unfold daysSinceLastActivity.
    rewrite (activityVars_latest tza clock repos latest Hlatest). cbn [fst snd].
    apply Math_floor_div_floor. reflexivity.
  - unfold lastCommitDate.
    now rewrite (activityVars_latest tza clock repos latest Hlatest).
  - unfold recentActivityVelocity.
    now rewrite (activityVars_latest tza clock repos latest Hlatest).
  - apply activityLevel_cases.
Qed.

(** Witness for [last_activity_and_level]: the most recent push is that of
    a fork, and the day gap is counted from it. *)
Lemma last_activity_and_level_witness :
  ScoringMetrics.daysSinceLastActivity
    (calculateHireabilityScore Sample.utc Sample.clock0 Sample.newcomer
       Sample.forkIsLatest)
  = Zfloor (IZR (now Sample.clock0 - Sample.t0) / IZR msPerDay).
Proof.
  apply (last_activity_and_level Sample.utc Sample.clock0 Sample.newcomer
           Sample.forkIsLatest Sample.t0).
  exact forkIsLatest_mostRecent.
Defined.

(** Claim C6.  The diversity score before rounding is the star bonus
    min(5, 5 x log10(stars of the originals + 1) / 2) plus the language
    bonus min(10, 10 x (distinct non-empty languages of the originals) / 4);
    no stars give star bonus 0, three languages give language bonus 7.5 and
    four or more give 10. *)
Theorem diversity_score_formula (repos : list GitHubRepo.t) (n : nat) :
  spec_distinctLanguages repos n ->
  let stars := numN (spec_starsOfOriginals repos) in
  (diversityScore repos
   = Rmin 5 (5 * Math_log10 (stars + 1) / 2) + Rmin 10 (10 * INR n / 4))%R
  /\ (starBonus repos = Rmin 5 (5 * Math_log10 (stars + 1) / 2))%R
  /\ (languageBonus repos = Rmin 10 (10 * INR n / 4))%R
  /\ (spec_starsOfOriginals repos = 0%N -> starBonus repos = 0%R)
  /\ (n = 3%nat -> languageBonus repos = 7.5%R)
  /\ ((4 <= n)%nat -> languageBonus repos = 10%R).
Proof.
  intros Hn. cbn zeta.
  assert (starBonus repos
          = Rmin 5 (5 * Math_log10 (numN (spec_starsOfOriginals repos) + 1) / 2))%R
    as Hstar.
  { unfold starBonus, Math_min. rewrite totalStars_spec. f_equal. lra. }
  assert (languageBonus repos = Rmin 10 (10 * INR n / 4))%R as Hlang.
  { unfold languageBonus, Math_min. rewrite (languages_size repos n Hn).
    f_equal. lra. }
  split; [|split; [|split; [|split; [|split]]]].
  - unfold diversityScore. now rewrite Hstar, Hlang.
  - exact Hstar.
  - exact Hlang.
  - intros H0. rewrite Hstar, H0. change (numN 0) with 0%R.
    rewrite Rplus_0_l, Math_log10_1. rewrite Rmin_right; lra.
  - intros ->. rewrite Hlang. simpl INR. rewrite Rmin_right; lra.
  - intros H4. rewrite Hlang. apply le_INR in H4. simpl INR in H4.
    rewrite Rmin_left; lra.
Qed.

(** Witness for [diversity_score_formula]: three distinct languages. *)
Lemma diversity_score_formula_witness :
  languageBonus Sample.threeLanguages = 7.5%R.
Proof.
  apply (diversity_score_formula Sample.threeLanguages 3
           threeLanguages_distinct).
  reflexivity.
Defined.

(** Claim C7.  The documentation score before rounding is 15 x (originals
    whose description is longer than 20 characters + originals with one of
    the three feature flags set) / (2 x originals), the ratio being 0
    when there is no original; a repository without a description counts
    with length 0. *)
Theorem documentation_score_formula (repos : list GitHubRepo.t) :
  documentationScore repos
  = (if (spec_originalCount repos =? 0)%nat then 0
     else 15 * ((INR (spec_describedOriginals repos)
                 + INR (spec_featureOriginals repos))
                / (2 * INR (spec_originalCount repos))))%R
  /\ forall r,
       descriptionLength r
       = match GitHubRepo.description r with
         | Some text => String.length text
         | None => 0%nat
         end.
Proof.
  split.
  - unfold documentationScore, docRatio, numLen.
    rewrite reposWithDesc_spec, featureUsage_spec, plus_INR.
    change (List.length (originalRepos repos)) with (spec_originalCount repos).
    destruct (spec_originalCount repos) as [|k]; [simpl; lra|].
    cbn [Nat.ltb Nat.leb Nat.eqb].
    rewrite (Rmult_comm (INR (S k)) 2). lra.
  - intros r. reflexivity.
Qed.

(** Claim C8.  In the returned record, [repoCountScore] is the rounded
    originality score, the same value as [originalityScore], and
    [starImpact] is the rounded star bonus alone, which is not the rounded
    diversity score (0 against 3 for one stale repository in one
    language). *)
Theorem alias_fields
  (tza : Z -> bool -> Z) (clock : nat -> Z)
  (profile : GitHubProfile.t) (repos : list GitHubRepo.t) :
  let m := calculateHireabilityScore tza clock profile repos in
  ScoringMetrics.repoCountScore m = Math_round (originalityScore repos)
  /\ ScoringMetrics.repoCountScore m = ScoringMetrics.originalityScore m
  /\ ScoringMetrics.starImpact m = Math_round (starBonus repos)
  /\ (let s := calculateHireabilityScore Sample.utc Sample.clock0
                 Sample.tenFollowers Sample.oneStale in
      ScoringMetrics.starImpact s = 0%Z
      /\ ScoringMetrics.diversityScore s = 3%Z).
Proof.
  cbn zeta. repeat split.
  - cbn [calculateHireabilityScore ScoringMetrics.starImpact].
    rewrite oneStale_starBonus. apply (Math_round_IZR 0).
  - cbn [calculateHireabilityScore ScoringMetrics.diversityScore].
    rewrite oneStale_diversityScore. apply Math_round_eq. lra.
Qed.



(** Claim C10.  When the list is not empty and the most recent push lies
    a whole day or more after the clock read, the day gap of the record is
    the floor of the signed difference and is negative: nothing clamps it
    at 0, and it is this value that enters 1 - gap/90, a multiplier above
    1. *)
Theorem future_push_negative_gap
  (tza : Z -> bool -> Z) (clock : nat -> Z)
  (profile : GitHubProfile.t) (repos : list GitHubRepo.t) (latest : Z) :
  spec_mostRecentPush repos latest ->
  (now clock + msPerDay <= latest)%Z ->
  let m := calculateHireabilityScore tza clock profile repos in
  let gap := ScoringMetrics.daysSinceLastActivity m in
  gap = Zfloor (IZR (now clock - latest) / IZR msPerDay)
  /\ (gap < 0)%Z
  /\ (recencyMultiplier tza clock repos = 1 - IZR gap / 90)%R
  /\ (1 < recencyMultiplier tza clock repos)%R
  /\ (activityScore tza clock repos
      = Rmin 10 (IZR (ScoringMetrics.recentActivityVelocity m)) * 3
        * (1 - IZR gap / 90))%R.
Proof.
  intros Hlatest Hahead. cbn zeta.
  cbn [calculateHireabilityScore ScoringMetrics.daysSinceLastActivity
       ScoringMetrics.recentActivityVelocity].
  assert (daysSinceLastActivity tza clock repos
          = ((now clock - latest) / 86400000)%Z) as Hgap.
  { unfold daysSinceLastActivity.
    now rewrite (activityVars_latest tza clock repos latest Hlatest). }
  assert (daysSinceLastActivity tza clock repos < 0)%Z as Hneg.
  { rewrite Hgap. unfold msPerDay in Hahead.
    apply Z.div_lt_upper_bound; lia. }
  assert (recencyMultiplier tza clock repos
          = 1 - IZR (daysSinceLastActivity tza clock repos) / 90)%R as Hmul.
  { unfold recencyMultiplier.
    destruct (Z.eqb_spec (daysSinceLastActivity tza clock repos) 0); [lia|].
    apply IZR_lt in Hneg. unfold Math_max. rewrite Rmax_right; lra. }
  split; [|split; [|split; [|split]]].
  - rewrite Hgap. apply Math_floor_div_floor. reflexivity.
  - exact Hneg.
  - exact Hmul.
  - rewrite Hmul. apply IZR_lt in Hneg. lra.
  - unfold activityScore. rewrite Hmul. reflexivity.
Qed.

(** Witness for [future_push_negative_gap]: a repository pushed 900 days
    after the clock read. *)
Lemma future_push_negative_gap_witness :
  (ScoringMetrics.daysSinceLastActivity
     (calculateHireabilityScore Sample.utc Sample.clock0 Sample.newcomer
        Sample.pushedAhead) < 0)%Z.
Proof.
  apply (future_push_negative_gap Sample.utc Sample.clock0 Sample.newcomer
           Sample.pushedAhead (Sample.t0 + Sample.days 900)%Z).
  - exact pushedAhead_mostRecent.
  - vm_compute. discriminate.
Defined.

(** ** Further properties of the scoring engine *)

Section RangeOfTotal.
Variable tza : Z -> bool -> Z.
Variable clock : nat -> Z.
Variable profile : GitHubProfile.t.
Variable repos : list GitHubRepo.t.
Local Open Scope R_scope.

Lemma scoreSum_le_100 :
  noFutureTimestamps clock profile repos ->
  scoreSum tza clock profile repos <= 100.
Proof.
  intros [Hcreated Hpushed].
  pose proof (daysSinceLastActivity_nonneg tza clock repos Hpushed) as Hd.
  pose proof (activityScore_le_30 tza clock repos Hd).
  pose proof (originalityRatio_bounds repos).
  pose proof (starBonus_bounds repos).
  pose proof (languageBonus_bounds repos).
  pose proof (docRatio_bounds repos).
  pose proof (followerScore_bounds profile).
  pose proof (ageScore_le_5 clock profile).
  pose proof (complexityScore_bounds repos).
  unfold scoreSum, originalityScore, diversityScore, documentationScore,
    followerSignal.
  lra.
Qed.
End RangeOfTotal.

(** The total score of the returned record lies between 0 and 100 when no
    timestamp of the input lies after the first read of the clock. *)
Theorem totalScore_between_0_and_100
  (tza : Z -> bool -> Z) (clock : nat -> Z)
  (profile : GitHubProfile.t) (repos : list GitHubRepo.t) :
  noFutureTimestamps clock profile repos ->
  (0 <= ScoringMetrics.totalScore
          (calculateHireabilityScore tza clock profile repos) <= 100)%Z.
Proof.
  intros Hpast.
  cbn [calculateHireabilityScore ScoringMetrics.totalScore]. unfold totalScore.
  apply Math_round_between. split.
  - apply scoreSum_nonneg. apply Hpast.
  - now apply scoreSum_le_100.
Qed.

(** Witness for [totalScore_between_0_and_100]. *)
Lemma totalScore_between_0_and_100_witness :
  (0 <= ScoringMetrics.totalScore
          (calculateHireabilityScore Sample.utc Sample.clock0
             Sample.tenFollowers Sample.threeLanguages) <= 100)%Z.
Proof.
  apply totalScore_between_0_and_100. split.
  - vm_compute. discriminate.
  - intros r Hr. simpl in Hr.
    repeat (destruct Hr as [<- | Hr]; [vm_compute; discriminate|]).
    destruct Hr.
Defined.

Section Recency.
Variable tza : Z -> bool -> Z.
Variable clock : nat -> Z.
Local Open Scope R_scope.

Lemma spec_recency_general (gap : Z) :
  spec_recency gap = Rmax 0 (1 - IZR gap / 90).
Proof.
  unfold spec_recency. destruct (Z.eqb_spec gap 0) as [-> | _]; [|reflexivity].
  rewrite Rmax_right; lra.
Qed.

Lemma recencyMultiplier_general (repos : list GitHubRepo.t) :
  recencyMultiplier tza clock repos
  = Rmax 0 (1 - IZR (daysSinceLastActivity tza clock repos) / 90).
Proof. apply spec_recency_general. Qed.
End Recency.

(** The recency multiplier is max(0, 1 - gap/90) for every day gap, the
    gap 0 included, so it never grows with the gap; from a gap of 90 days
    on (the 999 of the empty list included) the activity score is 0 and
    the level is INACTIVE. *)
Theorem recency_decays_to_zero
  (tza : Z -> bool -> Z) (clock : nat -> Z)
  (repos repos' : list GitHubRepo.t) :
  let gap := daysSinceLastActivity tza clock repos in
  let gap' := daysSinceLastActivity tza clock repos' in
  (recencyMultiplier tza clock repos = Rmax 0 (1 - IZR gap / 90))%R
  /\ ((gap <= gap')%Z ->
      (recencyMultiplier tza clock repos'
       <= recencyMultiplier tza clock repos)%R)
  /\ ((90 <= gap)%Z ->
      activityScore tza clock repos = 0%R
      /\ activityLevel tza clock repos = INACTIVE).
Proof.
  cbn zeta. split; [apply recencyMultiplier_general|]. split.
  - intros Hle. rewrite !recencyMultiplier_general.
    apply IZR_le in Hle.
    apply Rmax_lub; [apply Rmax_l|].
    eapply Rle_trans; [|apply Rmax_r]. lra.
  - intros H90. split.
    + unfold activityScore. rewrite recencyMultiplier_general.
      apply IZR_le in H90. rewrite Rmax_left by lra. lra.
    + unfold activityLevel.
      destruct (Z.leb_spec (daysSinceLastActivity tza clock repos) 7); [lia|].
      destruct (Z.leb_spec (daysSinceLastActivity tza clock repos) 30); [lia|].
      reflexivity.
Qed.

(** Witness for [recency_decays_to_zero]. *)
Lemma recency_decays_to_zero_witness :
  activityScore Sample.utc Sample.clock0 Sample.oneStale = 0%R
  /\ activityLevel Sample.utc Sample.clock0 Sample.oneStale = INACTIVE.
Proof.
  apply (recency_decays_to_zero Sample.utc Sample.clock0 Sample.oneStale
           Sample.oneStale).
  vm_compute. discriminate.
Defined.

Section WindowAndGap.
Variable off : Z.
Variable clock : nat -> Z.
Variable t : Z.
Variable repos : list GitHubRepo.t.
Hypothesis still : clockFixedAt clock t.

Lemma velocity_pos_iff :
  (1 <= Z.of_nat (List.length
                    (filter (pushedSince (ninetyDaysAgo (fun _ _ => off) clock)) repos)))%Z
  <-> exists r, In r repos /\ (t - 90 * msPerDay <= GitHubRepo.pushed_at r)%Z.
Proof.
  rewrite (ninetyDaysAgo_fixed_offset off clock t still).
  split.
  - intros Hlen.
    destruct (filter (pushedSince (t - 90 * msPerDay)) repos) as [|r l] eqn:Ef;
      [simpl in Hlen; lia|].
    assert (In r (filter (pushedSince (t - 90 * msPerDay)) repos)) as Hin
      by (rewrite Ef; now left).
    apply filter_In in Hin as [Hin Hp]. exists r. split; [assumption|].
    unfold pushedSince in Hp. now apply Z.leb_le.
  - intros (r & Hin & Hp).
    assert (In r (filter (pushedSince (t - 90 * msPerDay)) repos)) as Hf.
    { apply filter_In. split; [assumption|]. now apply Z.leb_le. }
    destruct (filter (pushedSince (t - 90 * msPerDay)) repos);
      [destruct Hf | simpl; lia].
Qed.
Lemma gap_below_90_has_velocity :
  repos <> [] ->
  (daysSinceLastActivity (fun _ _ => off) clock repos < 90)%Z ->
  (1 <= recentActivityVelocity (fun _ _ => off) clock repos)%Z.
Proof.
  intros Hne.
  destruct (sortedByPush_nonempty repos Hne) as (first & rest & Hsorted).
  pose proof (sortedByPush_first repos first rest Hsorted) as Hlatest.
  pose proof (activityVars_latest (fun _ _ => off) clock repos _ Hlatest)
    as Hvars.
  assert (now clock = t) as Hnow by apply still.
  unfold daysSinceLastActivity, recentActivityVelocity. rewrite Hvars.
  cbn [fst snd]. rewrite Hnow. intros Hgap.
  apply velocity_pos_iff.
  destruct Hlatest as [(r & Hin & Hr) _]. exists r. split; [assumption|].
  rewrite Hr. unfold msPerDay.
  Z.div_mod_to_equations. lia.
Qed.

Lemma velocity_has_gap_within_90 :
  repos <> [] ->
  (1 <= recentActivityVelocity (fun _ _ => off) clock repos)%Z ->
  (daysSinceLastActivity (fun _ _ => off) clock repos <= 90)%Z.
Proof.
  intros Hne.
  destruct (sortedByPush_nonempty repos Hne) as (first & rest & Hsorted).
  pose proof (sortedByPush_first repos first rest Hsorted) as Hlatest.
  pose proof (activityVars_latest (fun _ _ => off) clock repos _ Hlatest)
    as Hvars.
  assert (now clock = t) as Hnow by apply still.
  unfold daysSinceLastActivity, recentActivityVelocity. rewrite Hvars.
  cbn [fst snd]. rewrite Hnow. intros Hvel.
  apply velocity_pos_iff in Hvel as (r & Hin & Hr).
  destruct Hlatest as [_ Hmax]. specialize (Hmax r Hin).
  unfold msPerDay in Hr.
  Z.div_mod_to_equations. lia.
Qed.
End WindowAndGap.

(** On a host whose time zone has a fixed offset and whose clock stands
    still during the call, a repository list that is not empty has
    velocity at least 1 whenever its day gap is below 90, and a day gap of
    at most 90 whenever its velocity is at least 1; so the level is
    INACTIVE exactly when the day gap exceeds 30. *)
Theorem window_agrees_with_gap
  (off : Z) (clock : nat -> Z) (t : Z)
  (profile : GitHubProfile.t) (repos : list GitHubRepo.t) :
  clockFixedAt clock t ->
  repos <> [] ->
  let m := calculateHireabilityScore (fun _ _ => off) clock profile repos in
  let gap := ScoringMetrics.daysSinceLastActivity m in
  let velocity := ScoringMetrics.recentActivityVelocity m in
  ((gap < 90)%Z -> (1 <= velocity)%Z)
  /\ ((1 <= velocity)%Z -> (gap <= 90)%Z)
  /\ (ScoringMetrics.activityLevel m = INACTIVE <-> (30 < gap)%Z).
Proof.
  intros Hstill Hne. cbn zeta.
  cbn [calculateHireabilityScore ScoringMetrics.daysSinceLastActivity
       ScoringMetrics.recentActivityVelocity ScoringMetrics.activityLevel].
  pose proof (gap_below_90_has_velocity off clock t repos Hstill Hne) as H1.
  pose proof (velocity_has_gap_within_90 off clock t repos Hstill Hne) as H2.
  split; [exact H1|]. split; [exact H2|].
  unfold activityLevel.
  set (gap := daysSinceLastActivity (fun _ _ => off) clock repos) in *.
  set (vel := recentActivityVelocity (fun _ _ => off) clock repos) in *.
  destruct (Z.leb_spec gap 7), (Z.leb_spec 5 vel), (Z.leb_spec gap 30),
    (Z.leb_spec 1 vel); cbn [andb];
    split; intros; try discriminate; try reflexivity; lia.
Qed.

(** Witness for [window_agrees_with_gap]. *)
Lemma window_agrees_with_gap_witness :
  ScoringMetrics.activityLevel
    (calculateHireabilityScore (fun _ _ => 19800000%Z) Sample.clock0
       Sample.newcomer Sample.oneStale) = INACTIVE
  <-> (30 < ScoringMetrics.daysSinceLastActivity
              (calculateHireabilityScore (fun _ _ => 19800000%Z) Sample.clock0
                 Sample.newcomer Sample.oneStale))%Z.
Proof.
  apply (window_agrees_with_gap 19800000 Sample.clock0 Sample.t0
           Sample.newcomer Sample.oneStale).
  - intros k. reflexivity.
  - discriminate.
Defined.

Section Saturation.
Local Open Scope R_scope.

Lemma ln_100 : ln 100 = 2 * ln 10.
Proof.
  replace 100 with (10 * 10) by lra. rewrite ln_mult by lra. lra.
Qed.

Lemma ln_100000 : ln 100000 = 5 * ln 10.
Proof.
  replace 100000 with (10 ^ 5) by lra.
  rewrite ln_pow by lra. simpl INR. lra.
Qed.

Lemma ln_le_iff (x y : R) : 0 < x -> 0 < y -> (ln x <= ln y <-> x <= y).
Proof.
  intros Hx Hy. split.
  - intros Hln. destruct (Rle_or_lt x y) as [|Hlt]; [assumption|].
    pose proof (ln_increasing y x Hy Hlt). lra.
  - intros [Hlt | ->]; [left; now apply ln_increasing | lra].
Qed.

Lemma Math_log10_ge_2 (x : R) : 0 < x -> (2 <= Math_log10 x <-> 100 <= x).
Proof.
  intros Hx. unfold Math_log10. pose proof ln_10_pos as H10.
  rewrite <- (ln_le_iff 100 x) by lra. rewrite ln_100. split; intros H.
  - apply Rmult_le_compat_r with (r := ln 10) in H; [|lra].
    unfold Rdiv in H. rewrite Rmult_assoc, Rinv_l in H by lra. lra.
  - apply Rmult_le_reg_r with (ln 10); [assumption|].
    unfold Rdiv. rewrite Rmult_assoc, Rinv_l by lra. lra.
Qed.

Lemma Math_log10_ge_5 (x : R) : 0 < x -> (5 <= Math_log10 x <-> 100000 <= x).
Proof.
  intros Hx. unfold Math_log10. pose proof ln_10_pos as H10.
  rewrite <- (ln_le_iff 100000 x) by lra. rewrite ln_100000. split; intros H.
  - apply Rmult_le_compat_r with (r := ln 10) in H; [|lra].
    unfold Rdiv in H. rewrite Rmult_assoc, Rinv_l in H by lra. lra.
  - apply Rmult_le_reg_r with (ln 10); [assumption|].
    unfold Rdiv. rewrite Rmult_assoc, Rinv_l by lra. lra.
Qed.

Lemma Math_min_cap_iff (cap x : R) : Math_min cap x = cap <-> cap <= x.
Proof.
  unfold Math_min, Rmin. destruct (Rle_dec cap x); split; intros; lra.
Qed.
End Saturation.

(** The star bonus reaches its cap of 5 exactly when the original
    repositories have 99 stars or more between them. *)
Theorem starBonus_saturates_at_99 (repos : list GitHubRepo.t) :
  starBonus repos = 5%R <-> (99 <= spec_starsOfOriginals repos)%N.
Proof.
  unfold starBonus. rewrite Math_min_cap_iff, totalStars_spec.
  pose proof (numN_nonneg (spec_starsOfOriginals repos)) as H0.
  pose proof (Math_log10_ge_2 (numN (spec_starsOfOriginals repos) + 1)
                ltac:(lra)) as Hlog.
  split.
  - intros H.
    assert (100 <= numN (spec_starsOfOriginals repos) + 1)%R as H100
      by (apply Hlog; lra).
    unfold numN in H100.
    assert (IZR 99 <= IZR (Z.of_N (spec_starsOfOriginals repos)))%R as H99
      by lra.
    apply le_IZR in H99. lia.
  - intros H.
    assert (100 <= numN (spec_starsOfOriginals repos) + 1)%R as H100.
    { unfold numN.
      assert (IZR 99 <= IZR (Z.of_N (spec_starsOfOriginals repos)))%R
        by (apply IZR_le; lia).
      lra. }
    apply Hlog in H100. lra.
Qed.

Lemma Math_log10_zero_iff (x : R) :
  (1 <= x)%R -> (Math_log10 x = 0%R <-> x = 1%R).
Proof.
  intros Hx. unfold Math_log10. pose proof ln_10_pos as H10. split.
  - intros H.
    assert (ln x = 0)%R as Hln.
    { apply Rmult_eq_reg_r with (/ ln 10)%R; [lra|].
      apply Rinv_neq_0_compat. lra. }
    apply ln_inv; [lra | lra |]. now rewrite ln_1.
  - intros ->. rewrite ln_1. lra.
Qed.

(** The complexity score reaches its cap of 10 exactly when the average
    size of the original repositories is 99999 or more, and it is 0
    exactly when that average is 0. *)
Theorem complexityScore_saturates (repos : list GitHubRepo.t) :
  (complexityScore repos = 10%R <-> (99999 <= avgSize repos)%R)
  /\ (complexityScore repos = 0%R <-> avgSize repos = 0%R).
Proof.
  pose proof (avgSize_nonneg repos) as H0.
  pose proof (Math_log10_ge_5 (avgSize repos + 1) ltac:(lra)) as Hlog.
  pose proof (Math_log10_zero_iff (avgSize repos + 1) ltac:(lra)) as Hzero.
  pose proof (Math_log10_nonneg (avgSize repos + 1) ltac:(lra)) as Hpos.
  split.
  - unfold complexityScore. rewrite Math_min_cap_iff. split; intros H.
    + assert (100000 <= avgSize repos + 1)%R by (apply Hlog; lra). lra.
    + assert (5 <= Math_log10 (avgSize repos + 1))%R by (apply Hlog; lra).
      lra.
  - unfold complexityScore, Math_min, Rmin.
    destruct (Rle_dec 10 (Math_log10 (avgSize repos + 1) / 5 * 10)).
    + split; [lra|]. intros Hz.
      assert (Math_log10 (avgSize repos + 1) = 0)%R by (apply Hzero; lra).
      lra.
    + split; intros H.
      * assert (avgSize repos + 1 = 1)%R by (apply Hzero; lra). lra.
      * assert (Math_log10 (avgSize repos + 1) = 0)%R as ->
          by (apply Hzero; lra).
        lra.
Qed.

Section ForksAndOriginals.
Local Open Scope R_scope.

Lemma originalRepos_nil_iff (repos : list GitHubRepo.t) :
  originalRepos repos = []
  <-> forall r, In r repos -> GitHubRepo.fork r = true.
Proof.
  unfold originalRepos. split.
  - intros Hnil r Hr. destruct (GitHubRepo.fork r) eqn:Ef; [reflexivity|].
    assert (In r (filter (fun r => negb (GitHubRepo.fork r)) repos)) as Hin
      by (apply filter_In; rewrite Ef; auto).
    rewrite Hnil in Hin. destruct Hin.
  - intros Hall. induction repos as [|r l IH]; [reflexivity|].
    simpl. rewrite (Hall r) by now left. simpl.
    apply IH. intros r' Hr'. apply Hall. now right.
Qed.

Lemma no_originals_scores (repos : list GitHubRepo.t) :
  originalRepos repos = [] ->
  originalityScore repos = 0 /\ diversityScore repos = 0
  /\ documentationScore repos = 0 /\ complexityScore repos = 0.
Proof.
  intros Hnil. repeat split.
  - unfold originalityScore, originalityRatio. rewrite Hnil.
    destruct (0 <? List.length repos)%nat; [|lra].
    unfold numLen at 1. simpl. lra.
  - unfold diversityScore, starBonus, languageBonus, totalStars, languages.
    rewrite Hnil. apply empty_diversityScore.
  - unfold documentationScore, docRatio. rewrite Hnil. simpl. lra.
  - unfold complexityScore, avgSize. rewrite Hnil. apply empty_complexityScore.
Qed.
Lemma no_originals_total (tza : Z -> bool -> Z) (clock : nat -> Z)
  (profile : GitHubProfile.t) (repos : list GitHubRepo.t) :
  originalRepos repos = [] ->
  noFutureTimestamps clock profile repos ->
  (0 <= totalScore tza clock profile repos <= 40)%Z.
Proof.
  intros Hnil Hpast.
  destruct (no_originals_scores repos Hnil) as (Ho & Hd & Hdoc & Hc).
  unfold totalScore. apply Math_round_between.
  pose proof (scoreSum_nonneg tza clock profile repos (proj1 Hpast)) as Hlo.
  split; [exact Hlo|].
  destruct Hpast as [Hcreated Hpushed].
  pose proof (daysSinceLastActivity_nonneg tza clock repos Hpushed) as Hgap.
  pose proof (activityScore_le_30 tza clock repos Hgap).
  pose proof (followerScore_bounds profile).
  pose proof (ageScore_le_5 clock profile).
  unfold scoreSum, followerSignal. rewrite Ho, Hd, Hdoc, Hc. lra.
Qed.
End ForksAndOriginals.



Section Originality.
Local Open Scope R_scope.

Lemma filter_length_full {A : Type} (f : A -> bool) (l : list A) :
  List.length (filter f l) = List.length l <-> forall x, In x l -> f x = true.
Proof.
  induction l as [|x l IH]; simpl; [tauto|].
  pose proof (filter_length_le f l) as Hle.
  destruct (f x) eqn:Ef; simpl.
  - split.
    + intros [= H]. pose proof (proj1 IH H) as Hall.
      intros y [<- | Hy]; auto.
    + intros H. f_equal. apply (proj2 IH). auto.
  - split; [lia|]. intros H. specialize (H x (or_introl eq_refl)). congruence.
Qed.
Lemma originalRepos_all_iff (repos : list GitHubRepo.t) :
  List.length (originalRepos repos) = List.length repos
  <-> forall r, In r repos -> GitHubRepo.fork r = false.
Proof.
  unfold originalRepos. rewrite filter_length_full. split; intros H r Hr.
  - apply negb_true_iff. now apply H.
  - apply negb_true_iff. now apply H.
Qed.

Lemma ratio_extremes (a b : nat) :
  (0 < b)%nat ->
  (INR a / INR b * 20 = 20 <-> a = b) /\ (INR a / INR b * 20 = 0 <-> a = 0%nat).
Proof.
  intros Hb. apply lt_INR in Hb. simpl in Hb.
  assert (/ INR b <> 0) as Hinv by (apply Rinv_neq_0_compat; lra).
  assert (INR a / INR b * INR b = INR a) as Hcancel
    by (unfold Rdiv; rewrite Rmult_assoc, Rinv_l by lra; lra).
  split; split.
  - intros H. apply INR_eq.
    assert (INR a / INR b = 1) as H1 by lra.
    rewrite <- Hcancel, H1. lra.
  - intros ->. unfold Rdiv. rewrite Rinv_r by lra. lra.
  - intros H. apply (INR_eq a 0).
    assert (INR a / INR b = 0) as H0 by lra.
    rewrite <- Hcancel, H0. simpl. lra.
  - intros ->. simpl. lra.
Qed.
End Originality.

(** The originality score is 20 exactly when the list is not empty and
    holds no fork, and it is 0 exactly when the list holds no original
    repository. *)
Theorem originalityScore_extremes (repos : list GitHubRepo.t) :
  (originalityScore repos = 20%R
   <-> repos <> [] /\ forall r, In r repos -> GitHubRepo.fork r = false)
  /\ (originalityScore repos = 0%R
      <-> forall r, In r repos -> GitHubRepo.fork r = true).
Proof.
  rewrite <- originalRepos_all_iff, <- originalRepos_nil_iff.
  unfold originalityScore, originalityRatio, numLen.
  destruct (Nat.ltb_spec 0 (List.length repos)) as [Hpos | Hzero].
  - destruct (ratio_extremes (List.length (originalRepos repos))
                (List.length repos) Hpos) as [H20 H0].
    rewrite H20, H0, length_zero_iff_nil. split; [|tauto].
    split; [|tauto]. intros Heq. split; [|exact Heq].
    intros ->. simpl in Hpos. lia.
  - assert (repos = []) as -> by (apply length_zero_iff_nil; lia).
    split; split; try (intros; lra).
    + intros [H _]. now contradiction H.
    + reflexivity.
Qed.

Section OrderOfRepos.
Variable repos repos' : list GitHubRepo.t.
Hypothesis Hperm : Permutation repos repos'.

Lemma perm_filter {A : Type} (f : A -> bool) (l l' : list A) :
  Permutation l l' -> Permutation (filter f l) (filter f l').
Proof.
  induction 1 as [|x l l' _ IH|x y l|l l' l'' _ IH1 _ IH2]; simpl.
  - constructor.
  - destruct (f x); [now constructor | assumption].
  - destruct (f x), (f y); try reflexivity; apply perm_swap.
  - now transitivity (filter f l').
Qed.

Lemma fold_add_perm {A : Type} (f : A -> N) (l l' : list A) :
  Permutation l l' ->
  forall acc, fold_left (fun sum x => (sum + f x)%N) l acc
              = fold_left (fun sum x => (sum + f x)%N) l' acc.
Proof.
  induction 1 as [|x l l' _ IH|x y l|l l' l'' _ IH1 _ IH2]; intros acc; simpl.
  - reflexivity.
  - apply IH.
  - f_equal. lia.
  - now rewrite IH1.
Qed.

Lemma originalRepos_perm :
  Permutation (originalRepos repos) (originalRepos repos').
Proof. apply perm_filter, Hperm. Qed.

Lemma spec_mostRecentPush_perm (m : Z) :
  spec_mostRecentPush repos m -> spec_mostRecentPush repos' m.
Proof.
  intros [(r & Hr & Hm) Hmax]. split.
  - exists r. split; [|assumption]. now apply (Permutation_in _ Hperm).
  - intros r' Hr'. apply Hmax.
    now apply (Permutation_in _ (Permutation_sym Hperm)).
Qed.

Lemma activityVars_perm (tza : Z -> bool -> Z) (clock : nat -> Z) :
  activityVars tza clock repos = activityVars tza clock repos'.
Proof.
  destruct (sortedByPush repos) as [|first rest] eqn:Hsorted.
  - assert (repos = []) as Hnil.
    { apply length_zero_iff_nil. unfold sortedByPush in Hsorted.
      rewrite <- (Array_sort_length byPushDesc), Hsorted. reflexivity. }
    assert (repos' = []) as Hnil'.
    { apply Permutation_nil. rewrite <- Hnil. exact Hperm. }
    now rewrite (activityVars_empty tza clock repos Hnil),
      (activityVars_empty tza clock repos' Hnil').
  - pose proof (sortedByPush_first repos first rest Hsorted) as Hlatest.
    rewrite (activityVars_latest tza clock repos _ Hlatest).
    rewrite (activityVars_latest tza clock repos' _
               (spec_mostRecentPush_perm _ Hlatest)).
    do 2 f_equal.
    apply Permutation_length, perm_filter, Hperm.
Qed.

Lemma languages_size_perm :
  Set_size (languages repos) = Set_size (languages repos').
Proof.
  destruct (spec_distinctLanguages_total repos) as (n & Hn).
  rewrite (languages_size repos n Hn). symmetry.
  apply languages_size.
  destruct Hn as (l & Hnd & Hin & Hlen). exists l.
  split; [assumption|]. split; [|assumption].
  intros s. rewrite Hin. unfold spec_languageOfOriginal.
  split; intros (Hs & r & Hr & Hrest); (split; [assumption|]); exists r;
    (split; [|assumption]).
  - now apply (Permutation_in _ Hperm).
  - now apply (Permutation_in _ (Permutation_sym Hperm)).
Qed.
End OrderOfRepos.

(** The record does not depend on the order of the repository list: two
    lists that hold the same repositories give the same record. *)
Theorem order_of_repos_is_irrelevant
  (tza : Z -> bool -> Z) (clock : nat -> Z)
  (profile : GitHubProfile.t) (repos repos' : list GitHubRepo.t) :
  Permutation repos repos' ->
  calculateHireabilityScore tza clock profile repos
  = calculateHireabilityScore tza clock profile repos'.
Proof.
  intros Hperm.
  pose proof (originalRepos_perm repos repos' Hperm) as Horig.
  pose proof (activityVars_perm repos repos' Hperm tza clock) as Hvars.
  assert (daysSinceLastActivity tza clock repos
          = daysSinceLastActivity tza clock repos') as Hgap
    by (unfold daysSinceLastActivity; now rewrite Hvars).
  assert (recentActivityVelocity tza clock repos
          = recentActivityVelocity tza clock repos') as Hvel
    by (unfold recentActivityVelocity; now rewrite Hvars).
  assert (lastCommitDate tza clock repos = lastCommitDate tza clock repos')
    as Hlast by (unfold lastCommitDate; now rewrite Hvars).
  assert (activityLevel tza clock repos = activityLevel tza clock repos')
    as Hlevel by (unfold activityLevel; now rewrite Hgap, Hvel).
  assert (activityScore tza clock repos = activityScore tza clock repos')
    as Hact
    by (unfold activityScore, recencyMultiplier; now rewrite Hgap, Hvel).
  assert (List.length (originalRepos repos)
          = List.length (originalRepos repos')) as Hn
    by now apply Permutation_length.
  assert (originalityScore repos = originalityScore repos') as Hori.
  { unfold originalityScore, originalityRatio, numLen.
    now rewrite Hn, (Permutation_length Hperm). }
  assert (starBonus repos = starBonus repos') as Hstar.
  { unfold starBonus, totalStars.
    now rewrite (fold_add_perm GitHubRepo.stargazers_count _ _ Horig). }
  assert (diversityScore repos = diversityScore repos') as Hdiv.
  { unfold diversityScore, languageBonus.
    now rewrite Hstar, (languages_size_perm repos repos' Hperm). }
  assert (documentationScore repos = documentationScore repos') as Hdoc.
  { unfold documentationScore, docRatio, numLen, reposWithDesc, featureUsage.
    rewrite Hn.
    rewrite (Permutation_length (perm_filter usesFeatures _ _ Horig)).
    now rewrite (Permutation_length
                   (perm_filter (fun r => (20 <? descriptionLength r)%nat)
                      _ _ Horig)). }
  assert (complexityScore repos = complexityScore repos') as Hcx.
  { unfold complexityScore, avgSize, numLen.
    now rewrite Hn, (fold_add_perm GitHubRepo.size _ _ Horig). }
  unfold calculateHireabilityScore, totalScore, scoreSum.
  now rewrite Hact, Hori, Hdiv, Hdoc, Hcx, Hstar, Hlevel, Hlast, Hgap, Hvel.
Qed.

(** Witness for [order_of_repos_is_irrelevant]. *)
Lemma order_of_repos_is_irrelevant_witness :
  calculateHireabilityScore Sample.utc Sample.clock0 Sample.tenFollowers
    Sample.forkIsLatest
  = calculateHireabilityScore Sample.utc Sample.clock0 Sample.tenFollowers
      (rev Sample.forkIsLatest).
Proof.
  apply order_of_repos_is_irrelevant. apply perm_swap.
Defined.

(** The recent velocity never exceeds the number of repositories, so a
    list of fewer than five repositories is never HIGHLY_ACTIVE. *)
Theorem highly_active_needs_five_repos
  (tza : Z -> bool -> Z) (clock : nat -> Z)
  (profile : GitHubProfile.t) (repos : list GitHubRepo.t) :
  let m := calculateHireabilityScore tza clock profile repos in
  (0 <= ScoringMetrics.recentActivityVelocity m
   <= Z.of_nat (List.length repos))%Z
  /\ (ScoringMetrics.activityLevel m = HIGHLY_ACTIVE ->
      (5 <= List.length repos)%nat).
Proof.
  cbn zeta.
  cbn [calculateHireabilityScore ScoringMetrics.recentActivityVelocity
       ScoringMetrics.activityLevel].
  assert (recentActivityVelocity tza clock repos
          <= Z.of_nat (List.length repos))%Z as Hle.
  { unfold recentActivityVelocity, activityVars.
    destruct (0 <? List.length repos)%nat; [|simpl; lia].
    destruct (sortedByPush repos); simpl; [lia|].
    apply Nat2Z.inj_le, filter_length_le. }
  split; [split; [apply recentActivityVelocity_nonneg | exact Hle]|].
  unfold activityLevel.
  destruct (Z.leb_spec (daysSinceLastActivity tza clock repos) 7),
    (Z.leb_spec 5 (recentActivityVelocity tza clock repos)); cbn [andb].
  - intros _. lia.
  - destruct (_ && _); discriminate.
  - destruct (_ && _); discriminate.
  - destruct (_ && _); discriminate.
Qed.

(** Witness for [highly_active_needs_five_repos]. *)
Lemma highly_active_needs_five_repos_witness :
  ScoringMetrics.activityLevel
    (calculateHireabilityScore Sample.utc Sample.clock0 Sample.newcomer
       Sample.threeLanguages) = HIGHLY_ACTIVE
  /\ (5 <= List.length Sample.threeLanguages)%nat.
Proof.
  assert (ScoringMetrics.activityLevel
            (calculateHireabilityScore Sample.utc Sample.clock0
               Sample.newcomer Sample.threeLanguages) = HIGHLY_ACTIVE) as H
    by (vm_compute; reflexivity).
  split; [exact H|].
  exact (proj2 (highly_active_needs_five_repos Sample.utc Sample.clock0
                  Sample.newcomer Sample.threeLanguages) H).
Defined.

(** Adding a fork to the list leaves the diversity, documentation and
    complexity scores as they are and never raises the originality
    score. *)
Theorem adding_a_fork
  (fork : GitHubRepo.t) (repos : list GitHubRepo.t) :
  GitHubRepo.fork fork = true ->
  diversityScore (fork :: repos) = diversityScore repos
  /\ documentationScore (fork :: repos) = documentationScore repos
  /\ complexityScore (fork :: repos) = complexityScore repos
  /\ (originalityScore (fork :: repos) <= originalityScore repos)%R.
Proof.
  intros Hfork.
  assert (originalRepos (fork :: repos) = originalRepos repos) as Horig
    by (unfold originalRepos; simpl; now rewrite Hfork).
  split; [|split; [|split]].
  - unfold diversityScore, starBonus, languageBonus, totalStars, languages.
    now rewrite Horig.
  - unfold documentationScore, docRatio, reposWithDesc, featureUsage.
    now rewrite Horig.
  - unfold complexityScore, avgSize. now rewrite Horig.
  - unfold originalityScore, originalityRatio, numLen. rewrite Horig.
    change (List.length (fork :: repos)) with (S (List.length repos)).
    pose proof (filter_length_le (fun r => negb (GitHubRepo.fork r)) repos)
      as Hle.
    fold (originalRepos repos) in Hle.
    pose proof (pos_INR (List.length (originalRepos repos))) as Ha.
    destruct (List.length repos) as [|k].
    + assert (List.length (originalRepos repos) = 0%nat) as -> by lia.
      simpl. lra.
    + change (0 <? S (S k))%nat with true. change (0 <? S k)%nat with true.
      pose proof (pos_INR k) as Hk. rewrite (S_INR (S k)), (S_INR k).
      assert (/ (INR k + 1 + 1) <= / (INR k + 1))%R
        by (apply Rinv_le_contravar; lra).
      unfold Rdiv.
      apply Rmult_le_compat_r; [lra|]. now apply Rmult_le_compat_l.
Qed.

(** Witness for [adding_a_fork]. *)
Lemma adding_a_fork_witness :
  (originalityScore
     (Sample.withFork true (Sample.repoOf "f" Sample.t0 None)
      :: Sample.oneStale)
   <= originalityScore Sample.oneStale)%R.
Proof.
  apply (adding_a_fork (Sample.withFork true (Sample.repoOf "f" Sample.t0 None))
           Sample.oneStale).
  reflexivity.
Defined.

(** ** Facts about objects, slices and sorting *)

Section ObjectFacts.

Lemma getOwn_replace (o : JsObject.t) (key value key' : string) :
  JsObject.getOwn (JsObject.replace o key value) key'
  = if String.eqb key key' then Some value else JsObject.getOwn o key'.
Proof.
  induction o as [|[k v] rest IH]; simpl.
  - reflexivity.
  - destruct (String.eqb_spec k key) as [-> | Hk]; simpl.
    + destruct (String.eqb_spec key key'); reflexivity.
    + rewrite IH. destruct (String.eqb_spec k key') as [-> | Hk'].
      * destruct (String.eqb_spec key key'); [congruence | reflexivity].
      * reflexivity.
Qed.

Lemma getOwn_set (o : JsObject.t) (key value key' : string) :
  JsObject.getOwn (JsObject.set o key value) key'
  = if String.eqb key "__proto__" then JsObject.getOwn o key'
    else if String.eqb key key' then Some value
    else JsObject.getOwn o key'.
Proof.
  unfold JsObject.set. destruct (String.eqb key "__proto__"); [reflexivity|].
  apply getOwn_replace.
Qed.

Lemma getOwn_keys (o : JsObject.t) (key : string) :
  In key (JsObject.keys o) <-> exists v, JsObject.getOwn o key = Some v.
Proof.
  induction o as [|[k v] rest IH]; simpl.
  - split; [tauto | intros [v H]; discriminate].
  - destruct (String.eqb_spec k key) as [-> | Hk].
    + split; [eauto | tauto].
    + rewrite IH. split; [intros [H | H]; [congruence | exact H] | tauto].
Qed.

Lemma keys_replace_NoDup (o : JsObject.t) (key value : string) :
  NoDup (JsObject.keys o) -> NoDup (JsObject.keys (JsObject.replace o key value)).
Proof.
  induction o as [|[k v] rest IH]; simpl; intros Hnd.
  - constructor; [tauto | constructor].
  - inversion_clear Hnd as [|? ? Hk Hrest].
    destruct (String.eqb_spec k key) as [-> | Hne]; simpl.
    + now constructor.
    + constructor; [|now apply IH].
      intros Hin. apply getOwn_keys in Hin as [v' Hv'].
      rewrite getOwn_replace in Hv'.
      destruct (String.eqb_spec key k); [congruence|].
      apply Hk, getOwn_keys. eauto.
Qed.

Lemma keys_set_NoDup (o : JsObject.t) (key value : string) :
  NoDup (JsObject.keys o) -> NoDup (JsObject.keys (JsObject.set o key value)).
Proof.
  unfold JsObject.set. destruct (String.eqb key "__proto__"); [tauto|].
  apply keys_replace_NoDup.
Qed.
End ObjectFacts.

Section SliceFacts.

Lemma String_slice0_length (n : nat) (text : string) :
  (String.length (String_slice0 n text) <= n)%nat.
Proof.
  unfold String_slice0. revert text.
  induction n as [|n IH]; intros [|c text]; simpl; try lia.
  specialize (IH text). lia.
Qed.

Lemma String_slice0_prefix (n : nat) (text : string) :
  exists rest, text = (String_slice0 n text ++ rest)%string.
Proof.
  unfold String_slice0. revert text.
  induction n as [|n IH]; intros [|c text]; simpl.
  - now exists EmptyString.
  - now exists (String c text).
  - now exists EmptyString.
  - destruct (IH text) as [rest Hrest]. exists rest. now rewrite <- Hrest.
Qed.

Lemma String_slice0_short (n : nat) (text : string) :
  (String.length text <= n)%nat -> String_slice0 n text = text.
Proof.
  unfold String_slice0. revert text.
  induction n as [|n IH]; intros [|c text]; simpl; intros Hlen;
    try reflexivity; try lia.
  f_equal. apply IH. lia.
Qed.
End SliceFacts.

Lemma In_firstn {A : Type} (n : nat) (l : list A) (x : A) :
  In x (firstn n l) -> In x l.
Proof.
  intros Hin. rewrite <- (firstn_skipn n l). apply in_or_app. now left.
Qed.

Section SortedByKey.
Context {A : Type} (key : A -> Z).


Lemma sort_insert_sorted (x : A) (l : list A) :
  StronglySorted (fun a b => (key b <= key a)%Z) l -> StronglySorted (fun a b => (key b <= key a)%Z) (sort_insert (descendingBy key) x l).
Proof.
  induction 1 as [|y l Hl IH Hy]; simpl.
  - repeat constructor.
  - unfold descendingBy at 1. destruct (Z.leb_spec (key y - key x) 0) as [Hle | Hgt].
    + constructor; [now constructor|].
      constructor; [lia|].
      rewrite Forall_forall in *. intros z Hz. specialize (Hy z Hz).
      lia.
    + constructor; [assumption|].
      rewrite Forall_forall in *. intros z Hz.
      apply sort_insert_In in Hz as [-> | Hz]; [lia | auto].
Qed.

Lemma Array_sort_sorted (l : list A) :
  StronglySorted (fun a b => (key b <= key a)%Z) (Array_sort (descendingBy key) l).
Proof.
  induction l as [|x l IH]; simpl; [constructor|].
  now apply sort_insert_sorted.
Qed.

Lemma sorted_app_above (l1 l2 : list A) :
  StronglySorted (fun a b => (key b <= key a)%Z) (l1 ++ l2) ->
  forall a b, In a l1 -> In b l2 -> (key b <= key a)%Z.
Proof.
  induction l1 as [|x l1 IH]; simpl; intros Hs a b Ha Hb; [destruct Ha|].
  inversion_clear Hs as [|? ? Hrest Hx].
  destruct Ha as [<- | Ha].
  - rewrite Forall_forall in Hx. apply Hx, in_or_app. now right.
  - now apply IH.
Qed.

Lemma sorted_firstn (n : nat) (l : list A) :
  StronglySorted (fun a b => (key b <= key a)%Z) l -> StronglySorted (fun a b => (key b <= key a)%Z) (firstn n l).
Proof.
  intros Hs. revert n. induction Hs as [|x l Hl IH Hx]; intros [|n]; simpl;
    try constructor.
  - apply IH.
  - rewrite Forall_forall in *. intros z Hz. apply Hx.
    now apply (In_firstn n).
Qed.
End SortedByKey.

(** ** Properties of the GitHub service *)

Section Pagination.
Variable net : Network.
Variable username : string.

(** Three iterations are enough from page 1: more fuel changes nothing. *)
Lemma fetchPages_fuel (fuel fuel' : nat) (page : Z)
  (acc : list GitHubRepo.t) :
  (4 - page <= Z.of_nat fuel)%Z -> (4 - page <= Z.of_nat fuel')%Z ->
  fetchPages net username fuel page acc
  = fetchPages net username fuel' page acc.
Proof.
  revert fuel' page acc.
  induction fuel as [|fuel IH]; intros [|fuel'] page acc H1 H2; simpl.
  - reflexivity.
  - destruct (Z.leb_spec page 3); [lia | reflexivity].
  - destruct (Z.leb_spec page 3); [lia | reflexivity].
  - destruct (page <=? 3)%Z; [|reflexivity].
    destruct (userRepos net username page) as [resp|]; [|reflexivity].
    destruct (negb (ok resp)); [reflexivity|].
    destruct (body resp) as [pageRepos|]; [|reflexivity].
    destruct (List.length pageRepos =? 0)%nat; [reflexivity|].
    destruct (List.length pageRepos <? perPage)%nat; [reflexivity|].
    apply IH; lia.
Qed.

(** What the loop has appended when it ends without a rejection. *)
Lemma fetchPages_pages (fuel : nat) (page : Z)
  (acc repos : list GitHubRepo.t) :
  fetchPages net username fuel page acc = Fulfilled repos ->
  exists pages : list (list GitHubRepo.t),
    repos = acc ++ List.concat pages
    /\ (List.length pages <= fuel)%nat
    /\ forall i pageRepos,
         nth_error pages i = Some pageRepos ->
         (page + Z.of_nat i <= 3)%Z
         /\ spec_pageBody net username (page + Z.of_nat i) = Some pageRepos
         /\ pageRepos <> []
         /\ ((S i < List.length pages)%nat ->
             (perPage <= List.length pageRepos)%nat).
Proof.
  revert page acc.
  induction fuel as [|fuel IH]; intros page acc; simpl.
  - intros [= <-]. exists []. rewrite app_nil_r.
    split; [reflexivity|]. split; [reflexivity|].
    intros [|i] p; discriminate.
  - assert (exists pages : list (list GitHubRepo.t),
              acc = acc ++ List.concat pages /\ (List.length pages <= S fuel)%nat
              /\ forall i pageRepos,
                   nth_error pages i = Some pageRepos ->
                   (page + Z.of_nat i <= 3)%Z
                   /\ spec_pageBody net username (page + Z.of_nat i)
                      = Some pageRepos
                   /\ pageRepos <> []
                   /\ ((S i < List.length pages)%nat ->
                       (perPage <= List.length pageRepos)%nat)) as Hstop.
    { exists []. simpl. rewrite app_nil_r.
      split; [reflexivity|]. split; [lia|].
      intros [|i] p; discriminate. }
    destruct (Z.leb_spec page 3) as [Hpage | _];
      [|intros [= <-]; exact Hstop].
    destruct (userRepos net username page) as [resp|] eqn:Eresp;
      [|discriminate].
    destruct (ok resp) eqn:Eok; cbn [negb];
      [|intros [= <-]; exact Hstop].
    destruct (body resp) as [pageRepos|] eqn:Ebody; [|discriminate].
    assert (spec_pageBody net username page = Some pageRepos) as Hbody
      by (unfold spec_pageBody; now rewrite Eresp, Eok, Ebody).
    destruct (Nat.eqb_spec (List.length pageRepos) 0) as [_ | Hlen];
      [intros [= <-]; exact Hstop|].
    assert (pageRepos <> []) as Hne by (intros ->; now apply Hlen).
    destruct (Nat.ltb_spec (List.length pageRepos) perPage) as [_ | Hfull].
    + intros [= <-]. exists [pageRepos]. simpl. rewrite app_nil_r.
      split; [reflexivity|]. split; [lia|].
      intros [|[|i]] p; simpl; try discriminate. intros [= <-].
      rewrite Z.add_0_r. repeat split; try assumption. lia.
    + intros Hrest. apply IH in Hrest as (pages & -> & Hlen' & Hpages).
      exists (pageRepos :: pages). simpl. rewrite <- app_assoc.
      split; [reflexivity|]. split; [lia|].
      intros [|i] p; simpl.
      * intros [= <-]. rewrite Z.add_0_r.
        repeat split; try assumption. intros _. assumption.
      * intros Hp. specialize (Hpages i p Hp).
        replace (page + Z.pos (Pos.of_succ_nat i))%Z
          with (page + 1 + Z.of_nat i)%Z by lia.
        destruct Hpages as (H1 & H2 & H3 & H4).
        repeat split; try assumption. intros Hi. apply H4. lia.
Qed.

Lemma concat_length_le {A : Type} (pages : list (list A)) (bound : nat) :
  (forall p, In p pages -> (List.length p <= bound)%nat) ->
  (List.length (List.concat pages) <= List.length pages * bound)%nat.
Proof.
  induction pages as [|p pages IH]; simpl; intros Hall; [lia|].
  rewrite length_app.
  pose proof (Hall p (or_introl eq_refl)).
  assert (List.length (List.concat pages) <= List.length pages * bound)%nat
    by (apply IH; auto).
  lia.
Qed.
End Pagination.

(** When the call is fulfilled, its repositories are the first one, two or
    three pages of the listing, in order, or none: each of these pages was
    answered with an ok response and is not empty, and every page but the
    last holds at least 100 repositories.  If no page holds more than 100,
    the call returns at most 300 repositories. *)
Theorem repos_are_the_first_pages
  (net : Network) (username : string) (completion : list nat)
  (fetched : GitHubData.t) :
  fetchGitHubData net username completion = Fulfilled fetched ->
  exists pages : list (list GitHubRepo.t),
    GitHubData.repos fetched = List.concat pages
    /\ (List.length pages <= 3)%nat
    /\ (forall i pageRepos,
          nth_error pages i = Some pageRepos ->
          spec_pageBody net username (1 + Z.of_nat i) = Some pageRepos
          /\ pageRepos <> []
          /\ ((S i < List.length pages)%nat ->
              (100 <= List.length pageRepos)%nat))
    /\ ((forall page pageRepos,
           spec_pageBody net username page = Some pageRepos ->
           (List.length pageRepos <= 100)%nat) ->
        (List.length (GitHubData.repos fetched) <= 300)%nat).
Proof.
  unfold fetchGitHubData. intros Hfetch.
  destruct (users net username) as [resp|]; [|discriminate].
  destruct (profileOfResponse resp) as [p|]; [|discriminate].
  destruct (fetchPages net username 3 1 []) as [repos|] eqn:Epages;
    [|discriminate].
  injection Hfetch as <-. cbn [GitHubData.repos].
  apply fetchPages_pages in Epages as (pages & Hrepos & Hlen & Hpages).
  simpl in Hrepos. exists pages.
  split; [exact Hrepos|]. split; [exact Hlen|]. split.
  - intros i pg Hp. destruct (Hpages i pg Hp) as (_ & H2 & H3 & H4). auto.
  - intros Hbound. rewrite Hrepos.
    assert (List.length (List.concat pages) <= List.length pages * 100)%nat.
    { apply concat_length_le. intros pg Hp.
      apply In_nth_error in Hp as [i Hi].
      destruct (Hpages i pg Hi) as (_ & H2 & _). eapply Hbound, H2. }
    lia.
Qed.

(** Witness for [repos_are_the_first_pages]. *)
Lemma repos_are_the_first_pages_witness :
  exists pages : list (list GitHubRepo.t),
    GitHubData.repos SampleNet.fetched0 = List.concat pages
    /\ (List.length pages <= 3)%nat.
Proof.
  destruct (repos_are_the_first_pages SampleNet.net0 "octocat" [0; 1; 2]%nat
              SampleNet.fetched0 eq_refl) as (pages & Hrepos & Hlen & _).
  exists pages. split; assumption.
Defined.

(** The call is rejected with CANDIDATE_NOT_FOUND when the profile
    response has status 404, with RATE_LIMIT_EXCEEDED when it has status
    403, and with API_FAILURE and the status text for any other status
    outside 200..299; it is fulfilled only after a profile response with a
    status in 200..299, and then with the profile that response carries. *)
Theorem profile_status_decides
  (net : Network) (username : string) (completion : list nat)
  (profileResponse : Response GitHubProfile.t) :
  users net username = Fulfilled profileResponse ->
  let outcome := fetchGitHubData net username completion in
  (status profileResponse = 404%Z -> outcome = Rejected "CANDIDATE_NOT_FOUND")
  /\ (status profileResponse = 403%Z ->
      outcome = Rejected "RATE_LIMIT_EXCEEDED")
  /\ ((status profileResponse < 200 \/ 299 < status profileResponse)%Z ->
      status profileResponse <> 404%Z -> status profileResponse <> 403%Z ->
      outcome = Rejected ("API_FAILURE: " ++ statusText profileResponse))
  /\ (forall fetched,
        outcome = Fulfilled fetched ->
        (200 <= status profileResponse <= 299)%Z
        /\ body profileResponse = Fulfilled (GitHubData.profile fetched)).
Proof.
  intros Husers. cbn zeta. unfold fetchGitHubData. rewrite Husers.
  unfold profileOfResponse, ok.
  destruct (Z.eqb_spec (status profileResponse) 404) as [E404 | N404].
  { repeat split; try (intros; lia || reflexivity || discriminate). }
  destruct (Z.eqb_spec (status profileResponse) 403) as [E403 | N403].
  { repeat split; try (intros; lia || reflexivity || discriminate). }
  destruct (Z.leb_spec 200 (status profileResponse)) as [Hlo | Hlo];
    destruct (Z.leb_spec (status profileResponse) 299) as [Hhi | Hhi];
    cbn [andb negb].
  - split; [intros; lia|]. split; [intros; lia|]. split; [intros; lia|].
    intros fetched.
    destruct (body profileResponse) as [p|]; [|discriminate].
    destruct (fetchPages net username 3 1 []); [|discriminate].
    intros [= <-]. split; [lia | reflexivity].
  - repeat split; try (intros; lia || reflexivity || discriminate).
  - repeat split; try (intros; lia || reflexivity || discriminate).
  - repeat split; try (intros; lia || reflexivity || discriminate).
Qed.

(** Witness for [profile_status_decides]. *)
Lemma profile_status_decides_witness :
  fetchGitHubData SampleNet.netMissing "ghost" []
  = Rejected "CANDIDATE_NOT_FOUND".
Proof.
  apply (profile_status_decides SampleNet.netMissing "ghost" []
           SampleNet.notFound eq_refl).
  reflexivity.
Defined.

(** The README requests never decide whether the call is fulfilled, nor
    its profile or its repositories: two networks that answer the profile
    and the listing alike give, in any completion orders, the same
    rejection or the same profile and repositories. *)
Theorem readmes_never_fail_the_call
  (net net' : Network) (username : string) (completion completion' : list nat) :
  users net username = users net' username ->
  (forall page, userRepos net username page = userRepos net' username page) ->
  match fetchGitHubData net username completion,
        fetchGitHubData net' username completion' with
  | Fulfilled fetched, Fulfilled fetched' =>
      GitHubData.profile fetched = GitHubData.profile fetched'
      /\ GitHubData.repos fetched = GitHubData.repos fetched'
  | Rejected e, Rejected e' => e = e'
  | _, _ => False
  end.
Proof.
  intros Husers Hrepos.
  assert (forall fuel page acc,
            fetchPages net username fuel page acc
            = fetchPages net' username fuel page acc) as Hpages.
  { induction fuel as [|fuel IH]; intros page acc; simpl; [reflexivity|].
    rewrite Hrepos.
    destruct (page <=? 3)%Z; [|reflexivity].
    destruct (userRepos net' username page) as [resp|]; [|reflexivity].
    destruct (negb (ok resp)); [reflexivity|].
    destruct (body resp) as [pageRepos|]; [|reflexivity].
    destruct (List.length pageRepos =? 0)%nat; [reflexivity|].
    destruct (List.length pageRepos <? perPage)%nat; [reflexivity|].
    apply IH. }
  unfold fetchGitHubData. rewrite Husers, Hpages.
  destruct (users net' username) as [resp|]; [|reflexivity].
  destruct (profileOfResponse resp) as [p|]; [|reflexivity].
  destruct (fetchPages net' username 3 1 []) as [repos|]; [|reflexivity].
  split; reflexivity.
Qed.

(** Witness for [readmes_never_fail_the_call]. *)
Lemma readmes_never_fail_the_call_witness :
  match fetchGitHubData SampleNet.net0 "octocat" [0; 1; 2]%nat,
        fetchGitHubData SampleNet.netNoReadme "octocat" [2; 0; 1]%nat with
  | Fulfilled fetched, Fulfilled fetched' =>
      GitHubData.profile fetched = GitHubData.profile fetched'
      /\ GitHubData.repos fetched = GitHubData.repos fetched'
  | Rejected e, Rejected e' => e = e'
  | _, _ => False
  end.
Proof.
  apply readmes_never_fail_the_call.
  - reflexivity.
  - intros page. reflexivity.
Defined.

Section AuditTargets.
Variable repos : list GitHubRepo.t.

Lemma originalsByStars_sorted :
  StronglySorted (fun a b => (starsOf b <= starsOf a)%Z)
    (Array_sort byStarsDesc (originalRepos repos)).
Proof. apply (Array_sort_sorted starsOf). Qed.

Lemma top_by_stars (n : nat) (target r : GitHubRepo.t) :
  In target (firstn n (Array_sort byStarsDesc (originalRepos repos))) ->
  In r repos -> GitHubRepo.fork r = false ->
  In r (firstn n (Array_sort byStarsDesc (originalRepos repos)))
  \/ (GitHubRepo.stargazers_count r <= GitHubRepo.stargazers_count target)%N.
Proof.
  intros Htarget Hr Hfork.
  assert (In r (Array_sort byStarsDesc (originalRepos repos))) as Hsorted.
  { apply Array_sort_In. apply originalRepos_In. auto. }
  rewrite <- (firstn_skipn n) in Hsorted.
  apply in_app_or in Hsorted as [Hin | Hout]; [now left | right].
  pose proof originalsByStars_sorted as Hs.
  rewrite <- (firstn_skipn n) in Hs.
  pose proof (sorted_app_above starsOf _ _ Hs target r Htarget Hout) as Hle.
  unfold starsOf in Hle. lia.
Qed.

Lemma top_by_stars_original (n : nat) (target : GitHubRepo.t) :
  In target (firstn n (Array_sort byStarsDesc (originalRepos repos))) ->
  In target repos /\ GitHubRepo.fork target = false.
Proof.
  intros Htarget. apply In_firstn, Array_sort_In in Htarget.
  now apply originalRepos_In.
Qed.
End AuditTargets.

(** The audit targets are original repositories of the list, at most
    three of them and as many as there are when there are fewer, in
    descending order of stars; every original repository left out has no
    more stars than any target. *)
Theorem auditTargets_are_the_top_three (repos : list GitHubRepo.t) :
  let targets := auditTargets repos in
  List.length targets = Nat.min 3 (spec_originalCount repos)
  /\ (forall target, In target targets ->
        In target repos /\ GitHubRepo.fork target = false)
  /\ StronglySorted
       (fun a b => (GitHubRepo.stargazers_count b
                    <= GitHubRepo.stargazers_count a)%N) targets
  /\ (forall target r,
        In target targets -> In r repos -> GitHubRepo.fork r = false ->
        In r targets
        \/ (GitHubRepo.stargazers_count r
            <= GitHubRepo.stargazers_count target)%N).
Proof.
  cbn zeta. unfold auditTargets. fold (originalRepos repos).
  split; [|split; [|split]].
  - rewrite length_firstn, Array_sort_length. reflexivity.
  - apply top_by_stars_original.
  - pose proof (sorted_firstn starsOf 3 _ (originalsByStars_sorted repos))
      as Hs.
    induction Hs as [|x l Hl IH Hx]; constructor; [assumption|].
    rewrite Forall_forall in *. intros z Hz. specialize (Hx z Hz).
    unfold starsOf in Hx. lia.
  - apply top_by_stars.
Qed.

(** Witness for [auditTargets_are_the_top_three]. *)
Lemma auditTargets_are_the_top_three_witness :
  In (Sample.repoOf "g" Sample.t0 (Some "TypeScript"%string))
     (auditTargets Sample.threeLanguages)
  \/ (GitHubRepo.stargazers_count
        (Sample.repoOf "g" Sample.t0 (Some "TypeScript"%string))
      <= GitHubRepo.stargazers_count
           (Sample.repoOf "a" Sample.t0 (Some "Go"%string)))%N.
Proof.
  apply (auditTargets_are_the_top_three Sample.threeLanguages).
  - left. reflexivity.
  - simpl. tauto.
  - reflexivity.
Defined.

Section TopReadmes.
Variable net : Network.
Variable username : string.
Variable targets : list GitHubRepo.t.

Lemma store_getOwn (o : JsObject.t) (position : nat) (key sample : string) :
  JsObject.getOwn (storeReadme net username targets o position) key = Some sample ->
  JsObject.getOwn o key = Some sample \/ spec_storedBy net username targets key sample position.
Proof.
  unfold storeReadme, spec_storedBy.
  destruct (nth_error targets position) as [repo|] eqn:Enth; [|tauto].
  destruct (readmeSample net username position repo) as [s|] eqn:Es; [|tauto].
  rewrite getOwn_set.
  destruct (String.eqb_spec (GitHubRepo.name repo) "__proto__"); [tauto|].
  destruct (String.eqb_spec (GitHubRepo.name repo) key) as [Hk | _]; [|tauto].
  intros [= <-]. right. exists repo. subst key. auto.
Qed.

Lemma fold_store_getOwn (completion : list nat) (o : JsObject.t)
  (key sample : string) :
  JsObject.getOwn (fold_left (storeReadme net username targets) completion o) key = Some sample ->
  JsObject.getOwn o key = Some sample
  \/ exists position, In position completion /\ spec_storedBy net username targets key sample position.
Proof.
  revert o. induction completion as [|p completion IH]; intros o; simpl.
  - tauto.
  - intros H. apply IH in H as [H | (q & Hq & Hs)].
    + apply store_getOwn in H as [H | H]; [tauto|]. right. eauto.
    + right. eauto.
Qed.

Lemma fold_store_NoDup (completion : list nat) (o : JsObject.t) :
  NoDup (JsObject.keys o) ->
  NoDup (JsObject.keys (fold_left (storeReadme net username targets) completion o)).
Proof.
  revert o. induction completion as [|p completion IH]; intros o Ho; simpl.
  - assumption.
  - apply IH. unfold storeReadme.
    destruct (nth_error targets p) as [repo|]; [|assumption].
    destruct (readmeSample net username p repo); [|assumption].
    now apply keys_set_NoDup.
Qed.

Lemma storeReadmes_fold (completion : list nat) :
  storeReadmes net username targets completion
  = fold_left (storeReadme net username targets) completion JsObject.empty.
Proof. reflexivity. Qed.

Lemma storedBy_target (key sample : string) (position : nat) :
  spec_storedBy net username targets key sample position ->
  In key (map GitHubRepo.name targets)
  /\ (String.length sample <= 2000)%nat
  /\ exists response text rest,
       readme net username key position = Fulfilled response
       /\ ok response = true
       /\ body response = Fulfilled text
       /\ text = (sample ++ rest)%string.
Proof.
  intros (repo & Hnth & Hname & _ & Hsample). split; [|split].
  - rewrite <- Hname. apply in_map. eapply nth_error_In, Hnth.
  - unfold readmeSample in Hsample.
    destruct (readme net username (GitHubRepo.name repo) position)
      as [resp|]; [|discriminate].
    destruct (ok resp); [|discriminate].
    destruct (body resp) as [text|]; [|discriminate].
    injection Hsample as <-. apply String_slice0_length.
  - unfold readmeSample in Hsample. rewrite Hname in Hsample.
    destruct (readme net username key position) as [resp|]; [|discriminate].
    destruct (ok resp) eqn:Eok; [|discriminate].
    destruct (body resp) as [text|] eqn:Ebody; [|discriminate].
    injection Hsample as <-.
    destruct (String_slice0_prefix 2000 text) as [rest Hrest].
    exists resp, text, rest. auto.
Qed.

(** With distinct names, a sample once stored stays. *)
Lemma fold_store_keeps (completion : list nat) (o : JsObject.t)
  (key sample : string) (position : nat) :
  NoDup (map GitHubRepo.name targets) ->
  spec_storedBy net username targets key sample position ->
  JsObject.getOwn o key = Some sample ->
  JsObject.getOwn (fold_left (storeReadme net username targets) completion o) key = Some sample.
Proof.
  intros Hnames (repo & Hnth & Hname & Hproto & Hsample).
  revert o. induction completion as [|q completion IH]; intros o Ho; simpl.
  - assumption.
  - apply IH. unfold storeReadme.
    destruct (nth_error targets q) as [repo'|] eqn:Enth'; [|assumption].
    destruct (readmeSample net username q repo') as [s|] eqn:Es; [|assumption].
    rewrite getOwn_set.
    destruct (String.eqb_spec (GitHubRepo.name repo') "__proto__");
      [assumption|].
    destruct (String.eqb_spec (GitHubRepo.name repo') key) as [Hk | _];
      [|assumption].
    assert (q = position) as ->.
    { apply (proj1 (NoDup_nth_error _) Hnames).
      - rewrite length_map. apply nth_error_Some. congruence.
      - rewrite !nth_error_map, Enth', Hnth. simpl. congruence. }
    congruence.
Qed.

Lemma fold_store_stores (completion : list nat) (o : JsObject.t)
  (key sample : string) (position : nat) :
  NoDup (map GitHubRepo.name targets) ->
  spec_storedBy net username targets key sample position ->
  In position completion ->
  JsObject.getOwn (fold_left (storeReadme net username targets) completion o) key = Some sample.
Proof.
  intros Hnames Hstored. revert o.
  induction completion as [|q completion IH]; intros o Hin; simpl;
    [destruct Hin|].
  destruct (in_dec Nat.eq_dec position completion) as [Hlater | Hlast].
  - now apply IH.
  - destruct Hin as [-> | Hin]; [|contradiction].
    apply (fold_store_keeps _ _ _ _ position Hnames Hstored).
    destruct Hstored as (repo & Hnth & Hname & Hproto & Hsample).
    unfold storeReadme. rewrite Hnth, Hsample, getOwn_set.
    destruct (String.eqb_spec (GitHubRepo.name repo) "__proto__");
      [congruence|].
    destruct (String.eqb_spec (GitHubRepo.name repo) key); congruence.
Qed.
End TopReadmes.

(** Whatever the order in which the README requests complete, every entry
    of the README map of a fulfilled call has the name of an audit target
    as its key and, as its value, the first characters, 2000 at most, of a
    README text that was answered for that name with an ok response; the
    map has at most three entries and none under the key __proto__. *)
Theorem topReadmes_hold_samples
  (net : Network) (username : string) (completion : list nat)
  (fetched : GitHubData.t) :
  fetchGitHubData net username completion = Fulfilled fetched ->
  let targets := auditTargets (GitHubData.repos fetched) in
  let topReadmes := GitHubData.topReadmes fetched in
  (forall key sample,
     JsObject.getOwn topReadmes key = Some sample ->
     In key (map GitHubRepo.name targets)
     /\ key <> "__proto__"%string
     /\ (String.length sample <= 2000)%nat
     /\ exists position response text rest,
          readme net username key position = Fulfilled response
          /\ ok response = true
          /\ body response = Fulfilled text
          /\ text = (sample ++ rest)%string)
  /\ NoDup (JsObject.keys topReadmes)
  /\ (List.length (JsObject.keys topReadmes) <= 3)%nat.
Proof.
  unfold fetchGitHubData. intros Hfetch.
  destruct (users net username) as [resp|]; [|discriminate].
  destruct (profileOfResponse resp) as [p|]; [|discriminate].
  destruct (fetchPages net username 3 1 []) as [repos|]; [|discriminate].
  injection Hfetch as <-. cbn zeta.
  cbn [GitHubData.repos GitHubData.topReadmes]. unfold storeReadmes.
  assert (forall key sample,
            JsObject.getOwn
              (fold_left (storeReadme net username (auditTargets repos))
                 completion JsObject.empty) key = Some sample ->
            exists position,
              spec_storedBy net username (auditTargets repos) key sample
                position) as Hentries.
  { intros key sample H. apply fold_store_getOwn in H as [H | (q & _ & H)].
    - discriminate.
    - eauto. }
  assert (NoDup
            (JsObject.keys
               (fold_left (storeReadme net username (auditTargets repos))
                  completion JsObject.empty))) as Hnd
    by (apply fold_store_NoDup; constructor).
  split; [|split].
  - intros key sample H. apply Hentries in H as (position & Hstored).
    pose proof Hstored as (_ & _ & _ & Hproto & _).
    apply storedBy_target in Hstored as (Hin & Hlen & resp' & text & rest & H).
    repeat split; try assumption. exists position, resp', text, rest. exact H.
  - exact Hnd.
  - transitivity (List.length (map GitHubRepo.name (auditTargets repos))).
    + apply NoDup_incl_length; [exact Hnd|].
      intros key Hkey. apply getOwn_keys in Hkey as [sample Hsample].
      apply Hentries in Hsample as (position & Hstored).
      now apply storedBy_target in Hstored.
    + rewrite length_map. unfold auditTargets. apply firstn_le_length.
Qed.

(** Witness for [topReadmes_hold_samples]. *)
Lemma topReadmes_hold_samples_witness :
  (List.length (JsObject.keys (GitHubData.topReadmes SampleNet.fetched0))
   <= 3)%nat.
Proof.
  apply (topReadmes_hold_samples SampleNet.net0 "octocat" [0; 1; 2]%nat
           SampleNet.fetched0 eq_refl).
Defined.

(** When the audit targets have distinct names and each request completes
    once, the README map does not depend on the order of completion: under
    any two orders every key maps to the same sample. *)
Theorem completion_order_is_irrelevant
  (net : Network) (username : string) (targets : list GitHubRepo.t)
  (completion completion' : list nat) :
  NoDup (map GitHubRepo.name targets) ->
  spec_completionOrder targets completion ->
  spec_completionOrder targets completion' ->
  forall key,
    JsObject.getOwn (storeReadmes net username targets completion) key
    = JsObject.getOwn (storeReadmes net username targets completion') key.
Proof.
  intros Hnames Hc Hc'.
  assert (forall c c' key sample,
            spec_completionOrder targets c ->
            spec_completionOrder targets c' ->
            JsObject.getOwn (storeReadmes net username targets c) key
            = Some sample ->
            JsObject.getOwn (storeReadmes net username targets c') key
            = Some sample) as Hstep.
  { intros c c' key sample Hperm Hperm' H. unfold storeReadmes in *.
    apply fold_store_getOwn in H as [H | (q & Hq & Hstored)]; [discriminate|].
    apply (fold_store_stores net username targets c' _ key sample q Hnames
             Hstored).
    apply (Permutation_in _ (Permutation_sym Hperm')).
    apply (Permutation_in _ Hperm). exact Hq. }
  intros key.
  destruct (JsObject.getOwn (storeReadmes net username targets completion) key)
    as [sample|] eqn:E.
  - symmetry. now apply (Hstep completion completion').
  - destruct (JsObject.getOwn (storeReadmes net username targets completion')
                key) as [sample'|] eqn:E'; [|reflexivity].
    apply (Hstep completion' completion) in E'; [congruence | assumption..].
Qed.

(** Witness for [completion_order_is_irrelevant]. *)
Lemma completion_order_is_irrelevant_witness :
  JsObject.getOwn
    (storeReadmes SampleNet.net0 "octocat"
       (auditTargets Sample.threeLanguages) [0; 1; 2]%nat) "a"
  = JsObject.getOwn
      (storeReadmes SampleNet.net0 "octocat"
         (auditTargets Sample.threeLanguages) [2; 0; 1]%nat) "a".
Proof.
  apply completion_order_is_irrelevant.
  - vm_compute. repeat constructor; simpl; intuition discriminate.
  - unfold spec_completionOrder. vm_compute. apply Permutation_refl.
  - unfold spec_completionOrder. vm_compute.
    apply Permutation_sym.
    apply (perm_trans (l' := [0; 2; 1]%nat)); [apply perm_skip, perm_swap|].
    apply perm_swap.
Defined.

(** ** Properties of the evaluation service *)



(** When the client is built and the audit fails, the call is fulfilled
    with the fallback, whose tier is Strong Hire when the total score
    exceeds 70 and Needs Improvement otherwise; for the record that the
    engine computes from a list of forks only, with no timestamp after the
    clock read, it is Needs Improvement. *)
Theorem fallback_follows_the_total
  (tza : Z -> bool -> Z) (clock : nat -> Z)
  (profile : GitHubProfile.t) (repos : list GitHubRepo.t)
  (reason : string) (metrics : ScoringMetrics.t) :
  let evaluation := fallbackEvaluation metrics in
  generateAIEvaluation (Fulfilled tt) (Rejected reason) metrics
  = Fulfilled evaluation
  /\ ((70 < ScoringMetrics.totalScore metrics)%Z ->
      AIEvaluation.tier evaluation = HiringTier_value STRONG_HIRE)
  /\ ((ScoringMetrics.totalScore metrics <= 70)%Z ->
      AIEvaluation.tier evaluation = HiringTier_value NEEDS_IMPROVEMENT)
  /\ ((forall r, In r repos -> GitHubRepo.fork r = true) ->
      noFutureTimestamps clock profile repos ->
      AIEvaluation.tier
        (fallbackEvaluation (calculateHireabilityScore tza clock profile repos))
      = HiringTier_value NEEDS_IMPROVEMENT).
Proof.
  cbn zeta. split; [reflexivity|].
  assert (forall m, (ScoringMetrics.totalScore m <= 70)%Z ->
                    AIEvaluation.tier (fallbackEvaluation m)
                    = HiringTier_value NEEDS_IMPROVEMENT) as Hlow.
  { intros m Hm. unfold fallbackEvaluation. cbn [AIEvaluation.tier].
    destruct (Z.ltb_spec 70 (ScoringMetrics.totalScore m)); [lia|reflexivity]. }
  split; [|split].
  - intros Hhigh. unfold fallbackEvaluation. cbn [AIEvaluation.tier].
    destruct (Z.ltb_spec 70 (ScoringMetrics.totalScore metrics));
      [reflexivity | lia].
  - apply Hlow.
  - intros Hforks Hpast. apply Hlow.
    cbn [calculateHireabilityScore ScoringMetrics.totalScore].
    apply originalRepos_nil_iff in Hforks.
    pose proof (no_originals_total tza clock profile repos Hforks Hpast). lia.
Qed.

(** Witness for [fallback_follows_the_total]. *)
Lemma fallback_follows_the_total_witness :
  AIEvaluation.tier
    (fallbackEvaluation
       (calculateHireabilityScore Sample.utc Sample.clock0 Sample.tenFollowers
          [Sample.withFork true (Sample.repoOf "f" Sample.t0 None)]))
  = HiringTier_value NEEDS_IMPROVEMENT.
Proof.
  apply (fallback_follows_the_total Sample.utc Sample.clock0
           Sample.tenFollowers
           [Sample.withFork true (Sample.repoOf "f" Sample.t0 None)]
           "quota"
           (calculateHireabilityScore Sample.utc Sample.clock0
              Sample.tenFollowers [])).
  - intros r [<- | []]. reflexivity.
  - split.
    + vm_compute. discriminate.
    + intros r [<- | []]. vm_compute. discriminate.
Defined.

(** ** Properties of the application *)

Section LogWindow.

Lemma Array_slice_last_rev {A : Type} (n : nat) (l : list A) :
  Array_slice_last n l = rev (firstn n (rev l)).
Proof.
  unfold Array_slice_last. rewrite firstn_rev, rev_involutive. reflexivity.
Qed.

Lemma firstn_app_firstn {A : Type} (n : nat) (u v : list A) :
  firstn n (u ++ firstn n v) = firstn n (u ++ v).
Proof.
  rewrite !firstn_app, firstn_firstn. f_equal. f_equal. lia.
Qed.

Lemma Array_slice_last_app {A : Type} (n : nat) (l more : list A) :
  Array_slice_last n (Array_slice_last n l ++ more)
  = Array_slice_last n (l ++ more).
Proof.
  rewrite !Array_slice_last_rev, !rev_app_distr, rev_involutive.
  now rewrite firstn_app_firstn.
Qed.

Lemma addLog_slice (msg : string) (prev : list string) :
  addLog msg prev = Array_slice_last 5 (prev ++ [("> " ++ msg)%string]).
Proof.
  unfold addLog. rewrite !Array_slice_last_rev, rev_app_distr. simpl.
  reflexivity.
Qed.

Lemma Array_slice_last_length {A : Type} (n : nat) (l : list A) :
  (List.length (Array_slice_last n l) <= n)%nat.
Proof.
  rewrite Array_slice_last_rev, length_rev. apply firstn_le_length.
Qed.
End LogWindow.

(** After one or more calls of [addLog] the log holds the last five lines
    of what was there before followed by the new messages, each behind
    its prompt: at most five lines, the newest last. *)
Theorem addLog_keeps_the_last_five (msgs : list string) (prev : list string) :
  msgs <> [] ->
  let logs := fold_left (fun logs msg => addLog msg logs) msgs prev in
  logs
  = Array_slice_last 5 (prev ++ map (fun msg => ("> " ++ msg)%string) msgs)
  /\ (List.length logs <= 5)%nat
  /\ last logs EmptyString = ("> " ++ last msgs EmptyString)%string.
Proof.
  intros Hne. cbn zeta.
  assert (fold_left (fun logs msg => addLog msg logs) msgs prev
          = Array_slice_last 5
              (prev ++ map (fun msg => ("> " ++ msg)%string) msgs)) as Hlogs.
  { revert prev. induction msgs as [|msg rest IH]; intros prev;
      [contradiction|].
    simpl. destruct rest as [|msg' rest].
    - simpl. apply addLog_slice.
    - rewrite IH by discriminate. rewrite addLog_slice.
      rewrite Array_slice_last_app, <- app_assoc. reflexivity. }
  split; [exact Hlogs|]. split.
  - rewrite Hlogs. apply Array_slice_last_length.
  - destruct (exists_last Hne) as (front & final & ->).
    rewrite fold_left_app. simpl. unfold addLog.
    now rewrite !last_last.
Qed.

(** Witness for [addLog_keeps_the_last_five]. *)
Lemma addLog_keeps_the_last_five_witness :
  (List.length
     (fold_left (fun logs msg => addLog msg logs)
        ["a"; "b"; "c"; "d"; "e"; "f"]%string ["start"%string]) <= 5)%nat.
Proof.
  apply (addLog_keeps_the_last_five ["a"; "b"; "c"; "d"; "e"; "f"]%string
           ["start"%string]).
  discriminate.
Defined.

Section Handler.
Variable trim : string -> string.
Variable tza : Z -> bool -> Z.
Variable clock : nat -> Z.
Variable net : Network.
Variable completion : list nat.
Variable client : Settled unit.
Variable audit : Settled AIEvaluation.t.

Lemma messageOr_nonempty (message fallback : string) :
  fallback <> EmptyString -> messageOr message fallback <> EmptyString.
Proof.
  intros Hf. unfold messageOr.
  destruct (String.eqb_spec message EmptyString); assumption.
Qed.

Lemma failed_state (s : AppState.t) (logs : list string) (message : string) :
  let s' := failed s logs message in
  AppState.loading s' = false /\ AppState.data s' = None
  /\ exists shown, AppState.error s' = Some shown /\ shown <> EmptyString.
Proof.
  cbn zeta. unfold failed. cbn. repeat split.
  eexists. split; [reflexivity|]. now apply messageOr_nonempty.
Qed.
End Handler.

(** A submission with a blank handle leaves the state as it is.  Any
    other submission ends with [loading] off and either with the data and
    no error, or with an error message that is not empty and no data.
    The data hold the profile and repositories that were fetched, the
    record that the engine computes from them, and the log then shows
    five lines, the first line of the run having scrolled out. *)
Theorem handleAnalyze_ends_settled
  (trim : string -> string) (tza : Z -> bool -> Z) (clock : nat -> Z)
  (net : Network) (completion : list nat) (client : Settled unit)
  (audit : Settled AIEvaluation.t) (s : AppState.t) :
  let s' := handleAnalyze trim tza clock net completion client audit s in
  (trim (AppState.username s) = EmptyString -> s' = s)
  /\ (trim (AppState.username s) <> EmptyString ->
      AppState.loading s' = false
      /\ AppState.username s' = AppState.username s
      /\ ((AppState.error s' = None
           /\ exists fetched aiEval,
                fetchGitHubData net (AppState.username s) completion
                = Fulfilled fetched
                /\ generateAIEvaluation client audit
                     (calculateHireabilityScore tza clock
                        (GitHubData.profile fetched)
                        (GitHubData.repos fetched))
                   = Fulfilled aiEval
                /\ AppState.data s'
                   = Some
                       {| AppData.profile := GitHubData.profile fetched;
                          AppData.repos := GitHubData.repos fetched;
                          AppData.metrics :=
                            calculateHireabilityScore tza clock
                              (GitHubData.profile fetched)
                              (GitHubData.repos fetched);
                          AppData.aiEval := aiEval |}
                /\ List.length (AppState.logs s') = 5%nat
                /\ ~ In "Initializing Audit Engine v4.0.1..."%string
                        (AppState.logs s'))
          \/ (AppState.data s' = None
              /\ exists shown,
                   AppState.error s' = Some shown /\ shown <> EmptyString))).
Proof.
  cbn zeta. unfold handleAnalyze.
  destruct (String.eqb_spec (trim (AppState.username s)) EmptyString)
    as [Hblank | Hhandle].
  { split; [reflexivity | contradiction]. }
  split; [contradiction|]. intros _.
  destruct (fetchGitHubData net (AppState.username s) completion)
    as [fetched | e] eqn:Efetch.
  - destruct (generateAIEvaluation client audit
                (calculateHireabilityScore tza clock
                   (GitHubData.profile fetched) (GitHubData.repos fetched)))
      as [aiEval | e] eqn:Eeval.
    + cbn [AppState.loading AppState.username AppState.error AppState.data
           AppState.logs].
      split; [reflexivity|]. split; [reflexivity|]. left.
      split; [reflexivity|]. exists fetched, aiEval.
      split; [reflexivity|]. split; [exact Eeval|].
      split; [reflexivity|]. split; [reflexivity|].
      unfold addLog, Array_slice_last. cbn [List.length Nat.sub skipn app].
      intros [H | [H | [H | [H | [H | []]]]]]; discriminate.
    + destruct (failed_state s
                  (addLog
                     ("Feeding Forensic Engine with "
                      ++ Number_toString
                           (List.length
                              (JsObject.keys (GitHubData.topReadmes fetched)))
                      ++ " README samples...")
                     (addLog "Identifying high-value project READMEs..."
                        (addLog
                           ("Processing "
                            ++ Number_toString
                                 (List.length (GitHubData.repos fetched))
                            ++ " repositories...")
                           (addLog
                              ("Connecting to GitHub API for @"
                               ++ AppState.username s ++ "...")
                              ["Initializing Audit Engine v4.0.1..."%string]))))
                  e) as (Hl & Hd & Herr).
      split; [exact Hl|]. split; [reflexivity|]. right. auto.
  - destruct (failed_state s
                (addLog
                   ("Connecting to GitHub API for @"
                    ++ AppState.username s ++ "...")
                   ["Initializing Audit Engine v4.0.1..."%string]) e)
      as (Hl & Hd & Herr).
    split; [exact Hl|]. split; [reflexivity|]. right. auto.
Qed.

(** Witness for [handleAnalyze_ends_settled]. *)
Lemma handleAnalyze_ends_settled_witness :
  AppState.loading
    (handleAnalyze (fun handle => handle) Sample.utc Sample.clock0
       SampleNet.netMissing [] (Fulfilled tt) (Rejected "offline")
       {| AppState.username := "ghost";
          AppState.loading := false;
          AppState.logs := [];
          AppState.error := None;
          AppState.data := None |}) = false.
Proof.
  apply (handleAnalyze_ends_settled (fun handle => handle) Sample.utc
           Sample.clock0 SampleNet.netMissing [] (Fulfilled tt)
           (Rejected "offline")
           {| AppState.username := "ghost";
              AppState.loading := false;
              AppState.logs := [];
              AppState.error := None;
              AppState.data := None |}).
  discriminate.
Defined.

(** For the record that the engine computes, the status is shown in green
    whenever the level is HIGHLY_ACTIVE and in amber for an empty list; the
    activity bar is never narrower than 5 percent, is 5 percent wide from a
    day gap of 57 on, and is wider than 100 percent when the day gap is
    negative. *)
Theorem status_display_follows_the_gap
  (tza : Z -> bool -> Z) (clock : nat -> Z)
  (profile : GitHubProfile.t) (repos : list GitHubRepo.t) :
  let m := calculateHireabilityScore tza clock profile repos in
  let gap := ScoringMetrics.daysSinceLastActivity m in
  (ScoringMetrics.activityLevel m = HIGHLY_ACTIVE ->
   statusClass m = "text-green-500"%string)
  /\ (repos = [] ->
      statusClass m = "text-amber-500"%string /\ pulseWidth m = 5%R)
  /\ (5 <= pulseWidth m)%R
  /\ ((57 <= gap)%Z -> pulseWidth m = 5%R)
  /\ ((gap < 0)%Z -> (100 < pulseWidth m)%R).
Proof.
  cbn zeta. unfold statusClass, pulseWidth, Math_max.
  cbn [calculateHireabilityScore ScoringMetrics.activityLevel
       ScoringMetrics.daysSinceLastActivity].
  split; [|split; [|split; [|split]]].
  - unfold activityLevel.
    destruct (Z.leb_spec (daysSinceLastActivity tza clock repos) 7) as [H7|];
      cbn [andb].
    + intros _.
      destruct (Z.ltb_spec (daysSinceLastActivity tza clock repos) 14);
        [reflexivity | lia].
    + destruct (_ && _); discriminate.
  - intros ->. change (daysSinceLastActivity tza clock []) with 999%Z.
    split; [reflexivity|]. rewrite Rmax_left; lra.
  - apply Rmax_l.
  - intros H57. apply IZR_le in H57. rewrite Rmax_left; lra.
  - intros Hneg. apply IZR_lt in Hneg.
    eapply Rlt_le_trans; [|apply Rmax_r]. lra.
Qed.

(** Witness for [status_display_follows_the_gap]. *)
Lemma status_display_follows_the_gap_witness :
  statusClass
    (calculateHireabilityScore Sample.utc Sample.clock0 Sample.newcomer
       Sample.threeLanguages) = "text-green-500"%string.
Proof.
  apply (status_display_follows_the_gap Sample.utc Sample.clock0
           Sample.newcomer Sample.threeLanguages).
  vm_compute. reflexivity.
Defined.

(** On a host whose time zone has a fixed offset and whose clock stands
    still during the call, a status shown in green is never INACTIVE. *)
Theorem green_status_is_not_inactive
  (off : Z) (clock : nat -> Z) (t : Z)
  (profile : GitHubProfile.t) (repos : list GitHubRepo.t) :
  clockFixedAt clock t ->
  let m := calculateHireabilityScore (fun _ _ => off) clock profile repos in
  statusClass m = "text-green-500"%string ->
  ScoringMetrics.activityLevel m <> INACTIVE.
Proof.
  intros Hstill. cbn zeta. unfold statusClass.
  cbn [calculateHireabilityScore ScoringMetrics.activityLevel
       ScoringMetrics.daysSinceLastActivity].
  destruct (Z.ltb_spec (daysSinceLastActivity (fun _ _ => off) clock repos) 14)
    as [Hgap | _]; [|discriminate].
  intros _.
  assert (repos <> []) as Hne.
  { intros ->.
    change (daysSinceLastActivity (fun _ _ => off) clock []) with 999%Z in Hgap.
    lia. }
  pose proof (gap_below_90_has_velocity off clock t repos Hstill Hne
                ltac:(lia)) as Hvel.
  unfold activityLevel.
  destruct (_ && _); [discriminate|].
  destruct (Z.leb_spec (daysSinceLastActivity (fun _ _ => off) clock repos) 30);
    [|lia].
  destruct (Z.leb_spec 1 (recentActivityVelocity (fun _ _ => off) clock repos));
    [|lia].
  discriminate.
Qed.

(** Witness for [green_status_is_not_inactive]. *)
Lemma green_status_is_not_inactive_witness :
  ScoringMetrics.activityLevel
    (calculateHireabilityScore (fun _ _ => 0%Z) Sample.clock0 Sample.newcomer
       Sample.threeLanguages) <> INACTIVE.
Proof.
  apply (green_status_is_not_inactive 0 Sample.clock0 Sample.t0
           Sample.newcomer Sample.threeLanguages).
  - intros k. reflexivity.
  - vm_compute. reflexivity.
Defined.

(** The bar labelled Complexity shows 10 when the total score exceeds 65
    and 5 otherwise; it does not read the complexity score of the engine:
    for a list of forks only, with no timestamp after the clock read, it
    shows 5 while that score is 0. *)
Theorem complexity_bar_reads_the_total
  (tza : Z -> bool -> Z) (clock : nat -> Z)
  (profile : GitHubProfile.t) (repos : list GitHubRepo.t) :
  let m := calculateHireabilityScore tza clock profile repos in
  (complexityShown m = 10%Z <-> (65 < ScoringMetrics.totalScore m)%Z)
  /\ (complexityShown m = 5%Z <-> (ScoringMetrics.totalScore m <= 65)%Z)
  /\ ((forall r, In r repos -> GitHubRepo.fork r = true) ->
      noFutureTimestamps clock profile repos ->
      complexityShown m = 5%Z /\ complexityScore repos = 0%R).
Proof.
  cbn zeta. unfold complexityShown.
  cbn [calculateHireabilityScore ScoringMetrics.totalScore].
  split; [|split].
  - destruct (Z.ltb_spec 0 (totalScore tza clock profile repos - 65));
      split; intros; try lia; try discriminate; reflexivity.
  - destruct (Z.ltb_spec 0 (totalScore tza clock profile repos - 65));
      split; intros; try lia; try discriminate; reflexivity.
  - intros Hforks Hpast. apply originalRepos_nil_iff in Hforks.
    pose proof (no_originals_total tza clock profile repos Hforks Hpast).
    destruct (no_originals_scores repos Hforks) as (_ & _ & _ & Hc).
    split; [|exact Hc].
    destruct (Z.ltb_spec 0 (totalScore tza clock profile repos - 65));
      [lia | reflexivity].
Qed.

(** Witness for [complexity_bar_reads_the_total]. *)
Lemma complexity_bar_reads_the_total_witness :
  complexityShown
    (calculateHireabilityScore Sample.utc Sample.clock0 Sample.tenFollowers
       [Sample.withFork true (Sample.repoOf "f" Sample.t0 None)]) = 5%Z
  /\ complexityScore [Sample.withFork true (Sample.repoOf "f" Sample.t0 None)]
     = 0%R.
Proof.
  apply (complexity_bar_reads_the_total Sample.utc Sample.clock0
           Sample.tenFollowers
           [Sample.withFork true (Sample.repoOf "f" Sample.t0 None)]).
  - intros r [<- | []]. reflexivity.
  - split.
    + vm_compute. discriminate.
    + intros r [<- | []]. vm_compute. discriminate.
Defined.

Section IsoText.

Lemma String_length_append (a b : string) :
  String.length (a ++ b) = (String.length a + String.length b)%nat.
Proof. induction a as [|c a IH]; simpl; [reflexivity | now rewrite IH]. Qed.

Lemma digits_length (w : nat) (n : Z) : String.length (digits w n) = w.
Proof.
  revert n. induction w as [|w IH]; intros n; simpl; [reflexivity|].
  rewrite String_length_append, IH. simpl. lia.
Qed.

Lemma toISOString_length (t : Z) : (24 <= String.length (toISOString t))%nat.
Proof.
  unfold toISOString, isoYear.
  destruct ((0 <=? YearFromTime t)%Z && (YearFromTime t <=? 9999)%Z);
    [|destruct (0 <=? YearFromTime t)%Z];
    repeat rewrite ?String_length_append, ?digits_length; simpl; lia.
Qed.
End IsoText.

(** The last-push field holds the text N/A exactly when the repository
    list is empty; otherwise it holds a text of 24 characters or more. *)
Theorem lastCommitDate_sentinel
  (tza : Z -> bool -> Z) (clock : nat -> Z)
  (profile : GitHubProfile.t) (repos : list GitHubRepo.t) :
  let m := calculateHireabilityScore tza clock profile repos in
  (ScoringMetrics.lastCommitDate m = "N/A"%string <-> repos = [])
  /\ (repos <> [] ->
      (24 <= String.length (ScoringMetrics.lastCommitDate m))%nat).
Proof.
  cbn zeta. cbn [calculateHireabilityScore ScoringMetrics.lastCommitDate].
  assert (repos <> [] ->
          (24 <= String.length (lastCommitDate tza clock repos))%nat) as Hlong.
  { intros Hne.
    destruct (sortedByPush_nonempty repos Hne) as (first & rest & Hsorted).
    pose proof (sortedByPush_first repos first rest Hsorted) as Hlatest.
    unfold lastCommitDate.
    rewrite (activityVars_latest tza clock repos _ Hlatest). cbn [fst].
    apply toISOString_length. }
  split; [|exact Hlong]. split.
  - intros Hna. destruct repos as [|r l]; [reflexivity|].
    specialize (Hlong ltac:(discriminate)). rewrite Hna in Hlong.
    simpl in Hlong. lia.
  - intros ->. reflexivity.
Qed.

(** Witness for [lastCommitDate_sentinel]. *)
Lemma lastCommitDate_sentinel_witness :
  (24 <= String.length
           (ScoringMetrics.lastCommitDate
              (calculateHireabilityScore Sample.utc Sample.clock0
                 Sample.newcomer Sample.oneStale)))%nat.
Proof.
  apply (lastCommitDate_sentinel Sample.utc Sample.clock0 Sample.newcomer
           Sample.oneStale).
  discriminate.
Defined.
